(** * Wallet monitors of OM1: balance polling, receipt buffer, transfers

    A shallow embedding of [src/inputs/plugins/wallet_base.py],
    [wallet_ethereum.py], [wallet_solana.py] and [wallet_coinbase.py].

    - Python's [float] is IEEE binary64: the kernel's primitive [float].
    - [f"{x:.5f}"] and [float(str)] are correctly rounded conversions between
      binary64 and decimal text; they are written out on the exact value
      [m * 2^e] of a float.
    - A wallet object is a record; a method takes the object and returns the
      updated object together with what it returns or raises.
    - Calls that leave the process (RPC, custodial SDK) are answered by an
      oracle record and logged in a trace of network calls. *)

From Stdlib Require Import ZArith List String Ascii Bool Lia.
From Stdlib Require Import Floats.
From Stdlib Require Import DecimalString DecimalN DecimalPos.
Import ListNotations.

Local Open Scope string_scope.
Local Open Scope Z_scope.

(** ** Python floats and their decimal text *)

Module PyFloat.

(** [round(num / den)] to the nearest integer, ties to even; [den > 0]. *)
Definition div_half_even (num den : Z) : Z :=
  let q := num / den in
  let r := num mod den in
  if 2 * r <? den then q
  else if den <? 2 * r then q + 1
  else if Z.even q then q else q + 1.

(** The exact value of a finite float, scaled by [10^5] and rounded to an
    integer: the digits [f"{x:.5f}"] prints. *)
Definition scaled5 (m : positive) (e : Z) : Z :=
  if 0 <=? e then Z.pos m * 2 ^ e * 100000
  else div_half_even (Z.pos m * 100000) (2 ^ (- e)).

Fixpoint zfill (k : nat) (s : string) : string :=
  match k with
  | O => s
  | S k' => String "0" (zfill k' s)
  end.

(** Decimal digits of [n], at least six of them. *)
Definition digits6 (n : Z) : string :=
  let s := NilEmpty.string_of_uint (N.to_uint (Z.to_N n)) in
  zfill (6 - String.length s) s.

Fixpoint insert_point (k : nat) (s : string) : string :=
  match k, s with
  | S k', String c s' => String c (insert_point k' s')
  | _, _ => String "." s
  end.

(** [n / 10^5] in fixed-point notation with five decimals. *)
Definition fixed5 (n : Z) : string :=
  let s := digits6 n in
  insert_point (String.length s - 5) s.

Definition sign_text (s : bool) : string := if s then "-" else "".

(** [f"{x:.5f}"] *)
Definition format_5f (x : float) : string :=
  match Prim2SF x with
  | S754_nan => "nan"
  | S754_infinity s => sign_text s ++ "inf"
  | S754_zero s => sign_text s ++ fixed5 0
  | S754_finite s m e => sign_text s ++ fixed5 (scaled5 m e)
  end.

(** The float nearest to [num / 10^k] (ties to even): the value Python's
    [float] gives to the decimal text of [num] with [k] decimals. *)
Definition float_of_decimal (s : bool) (num : N) (k : nat) : float :=
  match num with
  | N0 => SF2Prim (S754_zero s)
  | Npos p =>
      match 10 ^ Z.of_nat k with
      | Zpos q => SF2Prim (SF64div (S754_finite s p 0) (S754_finite false q 0))
      | _ => nan
      end
  end.

(** Splits at the first decimal point. *)
Fixpoint split_point (s : string) : string * option string :=
  match s with
  | EmptyString => (EmptyString, None)
  | String c s' =>
      if Ascii.eqb c "." then (EmptyString, Some s')
      else let (i, f) := split_point s' in (String c i, f)
  end.

(** [float(text)] on the texts [format_5f] produces: an optional sign, then
    [inf], [nan], or digits with at most one decimal point and at least one
    digit.  [None] stands for [ValueError]. *)
Definition float_of_body (sg : bool) (s : string) : option float :=
  if String.eqb s "inf" then Some (SF2Prim (S754_infinity sg))
  else if String.eqb s "nan" then Some nan
  else
    let (i, f) := split_point s in
    let f' := match f with Some t => t | None => EmptyString end in
    if (String.length i + String.length f' =? 0)%nat then None
    else
      match NilEmpty.uint_of_string (i ++ f') with
      | Some d => Some (float_of_decimal sg (N.of_uint d) (String.length f'))
      | None => None
      end.

Definition float_of_string (s : string) : option float :=
  match s with
  | String "-" s' => float_of_body true s'
  | String "+" s' => float_of_body false s'
  | _ => float_of_body false s
  end.

(** [str.upper()] on ASCII text. *)
Definition upper_ascii (c : ascii) : ascii :=
  let n := nat_of_ascii c in
  if ((97 <=? n) && (n <=? 122))%nat then ascii_of_nat (n - 32) else c.

Fixpoint upper (s : string) : string :=
  match s with
  | EmptyString => EmptyString
  | String c s' => String (upper_ascii c) (upper s')
  end.

End PyFloat.

Import PyFloat.

(** ** Values, exceptions and effects *)

(** A raised exception: its class and [str(e)]. *)
Record exn := mkExn { exn_class : string; exn_text : string }.

Inductive outcome (A : Type) : Type :=
| Returned (a : A)
| Raised (e : exn).
Arguments Returned {A} a.
Arguments Raised {A} e.

(** The values the result dictionaries hold. *)
Inductive PyVal : Type :=
| PNone
| PStr (s : string)
| PFloat (x : float).

(** A [Dict[str, Any]] literal, keys in source order. *)
Definition Dict := list (string * PyVal).

Fixpoint dict_get (k : string) (d : Dict) : option PyVal :=
  match d with
  | [] => None
  | (k', v) :: d' => if String.eqb k k' then Some v else dict_get k d'
  end.

(** Calls that leave the process. *)
Inductive NetCall : Type :=
| W3IsConnected
| W3BlockNumber
| W3GetBalance (address : string)
| W3GetTransactionCount (address : string)
| W3GasPrice
| W3ChainId
| W3SendRawTransaction (raw : string)
| SolGetBalance (pubkey : string)
| SolGetLatestBlockhash
| SolSendTransaction (tx : string)
| CdpWalletFetch (wallet_id : option string)
| CdpBalance (asset : string)
| CdpTransfer (destination : string) (amount : float) (asset : string)
| CdpTransferWait
| CdpSignPayload (payload : string).

(** What running a method on an object [S] leaves behind: the object after
    the call, the value returned or the exception raised, and the network
    calls issued, oldest first. *)
Record Res (S A : Type) : Type := mkRes {
  final : S;
  out : outcome A;
  calls : list NetCall
}.
Arguments mkRes {S A} final out calls.
Arguments final {S A} r.
Arguments out {S A} r.
Arguments calls {S A} r.

Definition M (S A : Type) : Type := S -> Res S A.

Definition ret {S A} (a : A) : M S A := fun s => mkRes s (Returned a) [].

Definition raise {S A} (e : exn) : M S A := fun s => mkRes s (Raised e) [].

Definition bind {S A B} (m : M S A) (k : A -> M S B) : M S B :=
  fun s =>
    let r := m s in
    match out r with
    | Returned a =>
        let r' := k a (final r) in
        mkRes (final r') (out r') (calls r ++ calls r')
    | Raised e => mkRes (final r) (Raised e) (calls r)
    end.

(** [try: m  except Exception as e: h e] *)
Definition try_except {S A} (m : M S A) (h : exn -> M S A) : M S A :=
  fun s =>
    let r := m s in
    match out r with
    | Returned a => r
    | Raised e =>
        let r' := h e (final r) in
        mkRes (final r') (out r') (calls r ++ calls r')
    end.

Definition get {S} : M S S := fun s => mkRes s (Returned s) [].

Definition modify {S} (f : S -> S) : M S unit := fun s => mkRes (f s) (Returned tt) [].

(** A network call: logged, then answered. *)
Definition net {S A} (c : NetCall) (answer : outcome A) : M S A :=
  fun s => mkRes s answer [c].

(** A library call that stays in the process: answered, not logged. *)
Definition lib {S A} (answer : outcome A) : M S A :=
  fun s => mkRes s answer [].

Notation "x <- m ;; k" := (bind m (fun x => k))
  (at level 61, m at next level, right associativity).
Notation "m ;;; k" := (bind m (fun _ => k))
  (at level 61, right associativity).

(** Truth value of an [Optional[str]]: [None] and the empty text are false. *)
Definition truthy (o : option string) : bool :=
  match o with
  | Some s => negb (String.eqb s "")
  | None => false
  end.

(** ** wallet_base.py *)

Record Message := mkMessage { timestamp : float; message : string }.

(** One [IOProvider.add_input(name, text, timestamp)]. *)
Record IOInput := mkIOInput {
  input_name : string;
  input_text : string;
  input_timestamp : float
}.

(** The options [getattr(config, ..., default)] looks up. *)
Record SensorConfig := mkConfig {
  cfg_poll_interval : option float;
  cfg_primary_asset : option string;
  cfg_provider_url : option string;
  cfg_simulate_transfers : option bool
}.

Definition getattr {A} (o : option A) (default : A) : A :=
  match o with Some a => a | None => default end.

(** The attributes [WalletBase.__init__] sets.  [io_provider] holds the
    inputs this wallet has handed to the IOProvider, oldest first. *)
Record WalletBase := mkBase {
  class_name : string;
  messages : list Message;
  POLL_INTERVAL : float;
  primary_asset : string;
  balance : float;
  balance_previous : float;
  io_provider : list IOInput
}.

(** A wallet object: the base attributes and those of its subclass. *)
Record Obj (F : Type) : Type := mkObj { base : WalletBase; ext : F }.
Arguments mkObj {F} base ext.
Arguments base {F} o.
Arguments ext {F} o.

Definition set_messages (ms : list Message) (b : WalletBase) : WalletBase :=
  mkBase (class_name b) ms (POLL_INTERVAL b) (primary_asset b)
         (balance b) (balance_previous b) (io_provider b).

Definition set_balance (x : float) (b : WalletBase) : WalletBase :=
  mkBase (class_name b) (messages b) (POLL_INTERVAL b) (primary_asset b)
         x (balance_previous b) (io_provider b).

Definition set_balance_previous (x : float) (b : WalletBase) : WalletBase :=
  mkBase (class_name b) (messages b) (POLL_INTERVAL b) (primary_asset b)
         (balance b) x (io_provider b).

Definition add_input (i : IOInput) (b : WalletBase) : WalletBase :=
  mkBase (class_name b) (messages b) (POLL_INTERVAL b) (primary_asset b)
         (balance b) (balance_previous b) (io_provider b ++ [i]).

Definition on_base {F} (f : WalletBase -> WalletBase) (o : Obj F) : Obj F :=
  mkObj (f (base o)) (ext o).

(** [WalletBase.__init__] *)
Definition base_init (cls : string) (config : SensorConfig) : WalletBase :=
  mkBase cls [] (getattr (cfg_poll_interval config) 0.5%float)
         (getattr (cfg_primary_asset config) "eth") 0%float 0%float [].

Section WalletBase.

Variable F : Type.

(** The abstract method [fetch_balance(asset)] of the subclass. *)
Variable fetch_balance : string -> M (Obj F) float.

(** [_poll]: the sleep has no effect on the object. *)
Definition _poll : M (Obj F) (float * float) :=
  self <- get ;;
  b <- fetch_balance (primary_asset (base self)) ;;
  modify (on_base (set_balance b)) ;;;
  self <- get ;;
  let balance_change := (balance (base self) - balance_previous (base self))%float in
  modify (on_base (set_balance_previous (balance (base self)))) ;;;
  self <- get ;;
  ret (balance (base self), balance_change).

(** [_raw_to_text]; [now] is the reading of [time.time()]. *)
Definition _raw_to_text (now : float) (raw_input : float * float) : option Message :=
  let balance_change := snd raw_input in
  if (0 <? balance_change)%float
  then Some (mkMessage now (format_5f balance_change))
  else None.

(** [raw_to_text] *)
Definition raw_to_text (now : float) (raw_input : float * float) : M (Obj F) unit :=
  match _raw_to_text now raw_input with
  | Some pending_message =>
      modify (on_base (fun b => set_messages (messages b ++ [pending_message]) b))
  | None => ret tt
  end.

(** The loop [for message in self.messages: transaction_sum += float(message.message)]. *)
Fixpoint sum_loop (transaction_sum : float) (ms : list Message) : outcome float :=
  match ms with
  | [] => Returned transaction_sum
  | m :: ms' =>
      match float_of_string (message m) with
      | Some x => sum_loop (transaction_sum + x)%float ms'
      | None =>
          Raised (mkExn "ValueError"
                   ("could not convert string to float: " ++ message m))
      end
  end.

(** The line of the summary around the text of the amount. *)
Definition summary_line (amount asset : string) : string :=
  "You just received " ++ amount ++ " " ++ upper asset ++ ".".

Definition summary_text (transaction_sum : float) (asset : string) : string :=
  summary_line (format_5f transaction_sum) asset.

Definition newline : string := String (ascii_of_nat 10) EmptyString.

Definition buffer_text (cls text : string) : string :=
  newline ++ cls ++ " INPUT" ++ newline ++ "// START" ++ newline
    ++ text ++ newline ++ "// END" ++ newline.

(** [formatted_latest_buffer] *)
Definition formatted_latest_buffer : M (Obj F) (option string) :=
  self <- get ;;
  match messages (base self) with
  | [] => ret None
  | first :: rest =>
      transaction_sum <- lib (sum_loop 0%float (messages (base self))) ;;
      let last_message := last rest first in
      let result_message :=
        mkMessage (timestamp last_message)
                  (summary_text transaction_sum (primary_asset (base self))) in
      let result := buffer_text (class_name (base self)) (message result_message) in
      modify (on_base (add_input (mkIOInput (class_name (base self))
                                            (message result_message)
                                            (timestamp result_message)))) ;;;
      modify (on_base (set_messages [])) ;;;
      ret (Some result)
  end.

End WalletBase.

Arguments _poll {F} fetch_balance.
Arguments raw_to_text {F} now raw_input.
Arguments formatted_latest_buffer {F}.

(** ** The world outside the process *)

(** web3 and eth_account.  Network answers come first; the rest are library
    functions that compute locally and may raise. *)
Record Web3 := mkWeb3 {
  w3_is_connected : bool;
  w3_block_number : outcome Z;
  w3_get_balance : string -> outcome Z;
  w3_get_transaction_count : string -> outcome Z;
  w3_gas_price : outcome Z;
  w3_chain_id : outcome Z;
  w3_send_raw_transaction : string -> outcome string;
  w3_to_checksum_address : string -> outcome string;
  w3_to_wei : float -> outcome Z;
  acct_from_key : string -> outcome string;
  acct_sign_transaction : string -> Z * string * Z * Z * Z * Z -> outcome string;
  acct_sign_message : string -> string -> outcome string
}.

(** solana and solders. *)
Record SolanaRpc := mkSolana {
  sol_get_balance : string -> outcome (option Z);
  sol_get_latest_blockhash : outcome string;
  sol_send_transaction : string -> outcome string;
  sol_pubkey_from_string : string -> outcome string;
  sol_b58decode : string -> outcome string;
  sol_keypair_from_bytes : string -> outcome string;
  sol_keypair_pubkey : string -> string;
  sol_transfer_ix : string -> string -> Z -> outcome string;
  sol_new_with_payer : string -> string -> string -> string;
  sol_sign_transaction : string -> string -> outcome string;
  sol_sign_message : string -> string -> outcome string
}.

(** The wallet object of the custodial SDK. *)
Record CdpWallet := mkCdpWallet {
  cdp_wallet_id : string;
  cdp_default_address : option string
}.

Record Cdp := mkCdp {
  cdp_wallet_fetch : option string -> outcome CdpWallet;
  cdp_balance : string -> outcome float;
  cdp_transfer : float -> string -> string -> outcome string;
  cdp_transfer_wait : outcome unit;
  cdp_sign_payload : string -> outcome string
}.

Record World := mkWorld {
  environ : string -> option string;
  randint_0_10 : Z;
  web3 : Web3;
  solana : SolanaRpc;
  cdp : Cdp
}.

(** [os.environ.get(name, default)] *)
Definition environ_get (W : World) (name default : string) : string :=
  match environ W name with Some v => v | None => default end.

Definition failed_transfer (amount : float) (asset to_address error : string) : Dict :=
  [("transaction_hash", PNone); ("status", PStr "failed"); ("amount", PFloat amount);
   ("asset", PStr asset); ("to_address", PStr to_address); ("error", PStr error)].

Definition sent_transfer (tx status : string) (amount : float)
    (asset to_address from_address : string) : Dict :=
  [("transaction_hash", PStr tx); ("status", PStr status); ("amount", PFloat amount);
   ("asset", PStr asset); ("to_address", PStr to_address);
   ("from_address", PStr from_address)].

Definition failed_signature (msg address error : string) : Dict :=
  [("signature", PNone); ("message", PStr msg); ("address", PStr address);
   ("status", PStr "failed"); ("error", PStr error)].

Definition made_signature (signature msg address : string) : Dict :=
  [("signature", PStr signature); ("message", PStr msg); ("address", PStr address);
   ("status", PStr "success")].

Definition read_only_error : string := "No private key configured (read-only mode)".

(** [float(Decimal(wei) / 10**18)] *)
Definition from_wei_ether (wei : Z) : float :=
  float_of_decimal false (Z.to_N wei) 18.

(** [int(x)]: truncation toward zero. *)
Definition int_of_float (x : float) : outcome Z :=
  match Prim2SF x with
  | S754_nan => Raised (mkExn "ValueError" "cannot convert float NaN to integer")
  | S754_infinity _ =>
      Raised (mkExn "OverflowError" "cannot convert float infinity to integer")
  | S754_zero _ => Returned 0
  | S754_finite s m e =>
      let v := if 0 <=? e then Z.pos m * 2 ^ e else Z.pos m / 2 ^ (- e) in
      Returned (if s then - v else v)
  end.

(** ** wallet_ethereum.py *)

Module WalletEthereum.

(** An [eth_account] account: its key and the address derived from it. *)
Record Account := mkAccount { account_key : string; account_address : string }.

Record Fields := mkFields {
  PROVIDER_URL : string;
  ACCOUNT_ADDRESS : string;
  PRIVATE_KEY : option string;
  account : option Account;
  simulate_transfers : bool
}.

Definition Self := Obj Fields.

Definition default_address : string := "0xd8dA6BF26964aF9D7eEd9e03E53415D37aA96045".

(** [__init__]: the object exists only when no step raises. *)
Definition init (W : World) (config : SensorConfig) : Res unit Self :=
  (let b := base_init "WalletEthereum" config in
   let provider_url := getattr (cfg_provider_url config) "https://eth.llamarpc.com" in
   let address := environ_get W "ETH_ADDRESS" default_address in
   let private_key := environ W "ETH_PRIVATE_KEY" in
   acct <- (if truthy private_key
            then a <- lib (acct_from_key (web3 W) (getattr private_key "")) ;;
                 ret (Some (mkAccount (getattr private_key "") a))
            else ret None) ;;
   let sim := getattr (cfg_simulate_transfers config) false in
   connected <- net W3IsConnected (Returned (w3_is_connected (web3 W))) ;;
   if negb connected
   then raise (mkExn "Exception" ("Failed to connect to Ethereum at " ++ provider_url))
   else
     balance_wei <- net (W3GetBalance address) (w3_get_balance (web3 W) address) ;;
     let bal := from_wei_ether balance_wei in
     ret (mkObj (set_balance_previous bal (set_balance bal b))
                (mkFields provider_url address private_key acct sim))) tt.

(** [fetch_balance]; the asset is not looked at. *)
Definition fetch_balance (W : World) (asset : string) : M Self float :=
  self <- get ;;
  try_except
    (block_number <- net W3BlockNumber (w3_block_number (web3 W)) ;;
     balance_wei <- net (W3GetBalance (ACCOUNT_ADDRESS (ext self)))
                        (w3_get_balance (web3 W) (ACCOUNT_ADDRESS (ext self))) ;;
     let balance_eth := from_wei_ether balance_wei in
     if simulate_transfers (ext self)
     then if 7 <? randint_0_10 W
          then ret (balance_eth + 1)%float
          else ret balance_eth
     else ret balance_eth)
    (fun e => ret (balance (base self))).

Definition get_wallet_address (self : Self) : string := ACCOUNT_ADDRESS (ext self).

Definition get_supported_assets (self : Self) : list string := ["eth"].

(** [transfer] *)
Definition transfer (W : World) (to_address : string) (amount : float) (asset : string)
  : M Self Dict :=
  self <- get ;;
  match account (ext self) with
  | None => ret (failed_transfer amount asset to_address read_only_error)
  | Some acct =>
      try_except
        (to_address_checksum <- lib (w3_to_checksum_address (web3 W) to_address) ;;
         nonce <- net (W3GetTransactionCount (account_address acct))
                      (w3_get_transaction_count (web3 W) (account_address acct)) ;;
         gas_price <- net W3GasPrice (w3_gas_price (web3 W)) ;;
         value <- lib (w3_to_wei (web3 W) amount) ;;
         chain_id <- net W3ChainId (w3_chain_id (web3 W)) ;;
         let transaction := (nonce, to_address_checksum, value, 21000, gas_price, chain_id) in
         signed_txn <- lib (acct_sign_transaction (web3 W) (account_key acct) transaction) ;;
         tx_hash <- net (W3SendRawTransaction signed_txn)
                        (w3_send_raw_transaction (web3 W) signed_txn) ;;
         ret (sent_transfer tx_hash "pending" amount asset to_address
                            (account_address acct)))
        (fun e => ret (failed_transfer amount asset to_address (exn_text e)))
  end.

(** [sign_message] *)
Definition sign_message (W : World) (msg : string) : M Self Dict :=
  self <- get ;;
  match account (ext self) with
  | None => ret (failed_signature msg (ACCOUNT_ADDRESS (ext self)) read_only_error)
  | Some acct =>
      try_except
        (signature <- lib (acct_sign_message (web3 W) (account_key acct) msg) ;;
         ret (made_signature signature msg (account_address acct)))
        (fun e => ret (failed_signature msg (ACCOUNT_ADDRESS (ext self)) (exn_text e)))
  end.

End WalletEthereum.

(** ** wallet_solana.py *)

Module WalletSolana.

Record Fields := mkFields {
  rpc_url : string;
  wallet_address : string;
  private_key_bytes : option string;
  keypair : option string;
  pubkey : string
}.

Definition Self := Obj Fields.

(** [balance_response.value / 1_000_000_000] *)
Definition lamports_to_sol (lamports : Z) : float :=
  float_of_decimal false (Z.to_N lamports) 9.

(** [__init__] *)
Definition init (W : World) (config : SensorConfig) : Res unit Self :=
  (let config :=
     match cfg_primary_asset config with
     | Some _ => config
     | None => mkConfig (cfg_poll_interval config) (Some "sol")
                        (cfg_provider_url config) (cfg_simulate_transfers config)
     end in
   let b := base_init "WalletSolana" config in
   let url := environ_get W "SOLANA_RPC_URL" "https://api.mainnet-beta.solana.com" in
   let address := environ W "SOLANA_WALLET_ADDRESS" in
   if negb (truthy address)
   then raise (mkExn "ValueError" "SOLANA_WALLET_ADDRESS environment variable is not set")
   else
     let address := getattr address "" in
     let private_key := environ W "SOLANA_PRIVATE_KEY" in
     kp <- (if truthy private_key
            then try_except
                   (key_bytes <- lib (sol_b58decode (solana W) (getattr private_key "")) ;;
                    k <- lib (sol_keypair_from_bytes (solana W) key_bytes) ;;
                    ret (Some k))
                   (fun e => ret None)
            else ret None) ;;
     pk <- lib (sol_pubkey_from_string (solana W) address) ;;
     balance_response <- net (SolGetBalance pk) (sol_get_balance (solana W) pk) ;;
     match balance_response with
     | None => raise (mkExn "ConnectionError"
                        ("Failed to get balance from Solana RPC: " ++ url))
     | Some value =>
         let bal := lamports_to_sol value in
         ret (mkObj (set_balance_previous bal (set_balance bal b))
                    (mkFields url address private_key kp pk))
     end) tt.

(** [fetch_balance]; the asset is not looked at. *)
Definition fetch_balance (W : World) (asset : string) : M Self float :=
  self <- get ;;
  try_except
    (balance_response <- net (SolGetBalance (pubkey (ext self)))
                             (sol_get_balance (solana W) (pubkey (ext self))) ;;
     match balance_response with
     | None => raise (mkExn "ValueError" "Failed to fetch balance from Solana")
     | Some value => ret (lamports_to_sol value)
     end)
    (fun e => ret (balance (base self))).

Definition get_wallet_address (self : Self) : string := wallet_address (ext self).

Definition get_supported_assets (self : Self) : list string := ["sol"].

(** [transfer] *)
Definition transfer (W : World) (to_address : string) (amount : float) (asset : string)
  : M Self Dict :=
  self <- get ;;
  match keypair (ext self) with
  | None => ret (failed_transfer amount asset to_address read_only_error)
  | Some kp =>
      let payer := sol_keypair_pubkey (solana W) kp in
      try_except
        (recipient_pubkey <- lib (sol_pubkey_from_string (solana W) to_address) ;;
         lamports <- lib (int_of_float (amount * 1000000000)%float) ;;
         transfer_ix <- lib (sol_transfer_ix (solana W) payer recipient_pubkey lamports) ;;
         recent_blockhash <- net SolGetLatestBlockhash
                                 (sol_get_latest_blockhash (solana W)) ;;
         let transaction := sol_new_with_payer (solana W) transfer_ix payer recent_blockhash in
         signed <- lib (sol_sign_transaction (solana W) transaction kp) ;;
         tx_signature <- net (SolSendTransaction signed)
                             (sol_send_transaction (solana W) signed) ;;
         ret (sent_transfer tx_signature "pending" amount asset to_address payer))
        (fun e => ret (failed_transfer amount asset to_address (exn_text e)))
  end.

(** [sign_message] *)
Definition sign_message (W : World) (msg : string) : M Self Dict :=
  self <- get ;;
  match keypair (ext self) with
  | None => ret (failed_signature msg (wallet_address (ext self)) read_only_error)
  | Some kp =>
      try_except
        (signature <- lib (sol_sign_message (solana W) kp msg) ;;
         ret (made_signature signature msg (sol_keypair_pubkey (solana W) kp)))
        (fun e => ret (failed_signature msg (wallet_address (ext self)) (exn_text e)))
  end.

End WalletSolana.

(** ** wallet_coinbase.py *)

Module WalletCoinbase.

Record Fields := mkFields {
  COINBASE_WALLET_ID : option string;
  wallet : CdpWallet
}.

Definition Self := Obj Fields.

Definition set_wallet (w : CdpWallet) (self : Self) : Self :=
  mkObj (base self) (mkFields (COINBASE_WALLET_ID (ext self)) w).

(** [__init__] *)
Definition init (W : World) (config : SensorConfig) : Res unit Self :=
  (let b := base_init "WalletCoinbase" config in
   let wallet_id := environ W "COINBASE_WALLET_ID" in
   let api_key := environ W "COINBASE_API_KEY" in
   let api_secret := environ W "COINBASE_API_SECRET" in
   if negb (truthy api_key) || negb (truthy api_secret)
   then raise (mkExn "ValueError" "Missing Coinbase API credentials")
   else
     w <- (if negb (truthy wallet_id)
           then raise (mkExn "ValueError"
                         "COINBASE_WALLET_ID environment variable is not set")
           else net (CdpWalletFetch wallet_id) (cdp_wallet_fetch (cdp W) wallet_id)) ;;
     bal <- net (CdpBalance (primary_asset b)) (cdp_balance (cdp W) (primary_asset b)) ;;
     ret (mkObj (set_balance_previous bal (set_balance bal b))
                (mkFields wallet_id w))) tt.

(** [fetch_balance]: no handler around the two SDK calls. *)
Definition fetch_balance (W : World) (asset : string) : M Self float :=
  self <- get ;;
  w <- net (CdpWalletFetch (COINBASE_WALLET_ID (ext self)))
           (cdp_wallet_fetch (cdp W) (COINBASE_WALLET_ID (ext self))) ;;
  modify (set_wallet w) ;;;
  bal <- net (CdpBalance asset) (cdp_balance (cdp W) asset) ;;
  ret bal.

(** [self.wallet.default_address.address_id]: the SDK wallet may have no
    default address, and then the attribute access raises. *)
Definition get_wallet_address (self : Self) : outcome string :=
  match cdp_default_address (wallet (ext self)) with
  | Some address_id => Returned address_id
  | None =>
      Raised (mkExn "AttributeError"
                "'NoneType' object has no attribute 'address_id'")
  end.

Definition get_supported_assets (self : Self) : list string :=
  ["eth"; "usdc"; "weth"; "gwei"].

(** [transfer] *)
Definition transfer (W : World) (to_address : string) (amount : float) (asset : string)
  : M Self Dict :=
  self <- get ;;
  try_except
    (transaction_hash <- net (CdpTransfer to_address amount asset)
                             (cdp_transfer (cdp W) amount asset to_address) ;;
     net CdpTransferWait (cdp_transfer_wait (cdp W)) ;;;
     from_address <- lib (get_wallet_address self) ;;
     ret (sent_transfer transaction_hash "completed" amount asset to_address
                        from_address))
    (fun e => ret (failed_transfer amount asset to_address (exn_text e))).

(** [sign_message] *)
Definition sign_message (W : World) (msg : string) : M Self Dict :=
  self <- get ;;
  try_except
    (signature <- net (CdpSignPayload msg) (cdp_sign_payload (cdp W) msg) ;;
     address <- lib (get_wallet_address self) ;;
     ret (made_signature signature msg address))
    (fun e =>
       address <- lib (get_wallet_address self) ;;
       ret (failed_signature msg address (exn_text e))).

End WalletCoinbase.

(** ** Any of the three wallets *)

Inductive Wallet : Type :=
| Ethereum (self : WalletEthereum.Self)
| Solana (self : WalletSolana.Self)
| Coinbase (self : WalletCoinbase.Self).

Inductive Variant : Type := VEthereum | VSolana | VCoinbase.

Definition variant_of (w : Wallet) : Variant :=
  match w with
  | Ethereum _ => VEthereum
  | Solana _ => VSolana
  | Coinbase _ => VCoinbase
  end.

Definition wallet_base (w : Wallet) : WalletBase :=
  match w with
  | Ethereum o => base o
  | Solana o => base o
  | Coinbase o => base o
  end.

(** A method of the subclass, run on whichever wallet this is. *)
Definition dispatch {A}
    (e : M WalletEthereum.Self A) (s : M WalletSolana.Self A)
    (c : M WalletCoinbase.Self A) : M Wallet A :=
  fun w =>
    match w with
    | Ethereum o => let r := e o in mkRes (Ethereum (final r)) (out r) (calls r)
    | Solana o => let r := s o in mkRes (Solana (final r)) (out r) (calls r)
    | Coinbase o => let r := c o in mkRes (Coinbase (final r)) (out r) (calls r)
    end.

Definition construct (v : Variant) (W : World) (config : SensorConfig) : Res unit Wallet :=
  match v with
  | VEthereum =>
      let r := WalletEthereum.init W config in
      mkRes tt (match out r with Returned o => Returned (Ethereum o) | Raised e => Raised e end)
            (calls r)
  | VSolana =>
      let r := WalletSolana.init W config in
      mkRes tt (match out r with Returned o => Returned (Solana o) | Raised e => Raised e end)
            (calls r)
  | VCoinbase =>
      let r := WalletCoinbase.init W config in
      mkRes tt (match out r with Returned o => Returned (Coinbase o) | Raised e => Raised e end)
            (calls r)
  end.

Definition fetch_balance (W : World) (asset : string) : M Wallet float :=
  dispatch (WalletEthereum.fetch_balance W asset) (WalletSolana.fetch_balance W asset)
           (WalletCoinbase.fetch_balance W asset).

Definition transfer (W : World) (to_address : string) (amount : float) (asset : string)
  : M Wallet Dict :=
  dispatch (WalletEthereum.transfer W to_address amount asset)
           (WalletSolana.transfer W to_address amount asset)
           (WalletCoinbase.transfer W to_address amount asset).

Definition sign_message (W : World) (msg : string) : M Wallet Dict :=
  dispatch (WalletEthereum.sign_message W msg) (WalletSolana.sign_message W msg)
           (WalletCoinbase.sign_message W msg).

(** [_poll] with the [fetch_balance] of the wallet's own class. *)
Definition poll (W : World) : M Wallet (float * float) :=
  dispatch (_poll (WalletEthereum.fetch_balance W)) (_poll (WalletSolana.fetch_balance W))
           (_poll (WalletCoinbase.fetch_balance W)).

Definition record (now : float) (raw_input : float * float) : M Wallet unit :=
  dispatch (raw_to_text now raw_input) (raw_to_text now raw_input)
           (raw_to_text now raw_input).

Definition flush : M Wallet (option string) :=
  dispatch formatted_latest_buffer formatted_latest_buffer formatted_latest_buffer.

(** [raw_to_text(await _poll())] once per world, one after the other: the
    polling loop of the host.  A cycle whose fetch raises records nothing. *)
Definition cycle (W : World) (now : float) (w : Wallet) : Wallet :=
  let r := poll W w in
  match out r with
  | Returned raw_input => final (record now raw_input (final r))
  | Raised _ => final r
  end.

Fixpoint cycles (Ws : list (World * float)) (w : Wallet) : Wallet :=
  match Ws with
  | [] => w
  | (W, now) :: Ws' => cycles Ws' (cycle W now w)
  end.

(** The same wallet with other sampler and buffer state. *)
Definition with_tracking (bal prev : float) (ms : list Message) (w : Wallet) : Wallet :=
  let f F (o : Obj F) :=
    mkObj (set_messages ms (set_balance_previous prev (set_balance bal (base o)))) (ext o) in
  match w with
  | Ethereum o => Ethereum (f _ o)
  | Solana o => Solana (f _ o)
  | Coinbase o => Coinbase (f _ o)
  end.

(** Whether the wallet holds what it signs with. *)
Definition read_only (w : Wallet) : bool :=
  match w with
  | Ethereum o => match WalletEthereum.account (ext o) with None => true | Some _ => false end
  | Solana o => match WalletSolana.keypair (ext o) with None => true | Some _ => false end
  | Coinbase o => false
  end.

(** Whether the environment holds what signing needs: the private key of the
    Ethereum and of the Solana wallet; for the Coinbase wallet, whose
    transactions the custodial service signs, the API key and secret that
    authorise it. *)
Definition has_signing_credential (v : Variant) (W : World) : bool :=
  match v with
  | VEthereum => truthy (environ W "ETH_PRIVATE_KEY")
  | VSolana => truthy (environ W "SOLANA_PRIVATE_KEY")
  | VCoinbase =>
      truthy (environ W "COINBASE_API_KEY") && truthy (environ W "COINBASE_API_SECRET")
  end.

Definition status_of (r : outcome Dict) : option PyVal :=
  match r with
  | Returned d => dict_get "status" d
  | Raised _ => None
  end.

(** ** Worlds and wallets used as concrete inputs *)

Module Demo.

Definition no_environ : string -> option string := fun _ => None.

Definition refused {A} : outcome A :=
  Raised (mkExn "ConnectionError" "connection refused").

Definition web3_up : Web3 :=
  mkWeb3 true (Returned 19000000)
         (fun _ => Returned 10000000000000000000)
         (fun _ => Returned 7) (Returned 20000000000) (Returned 1)
         (fun _ => Returned "0x5c504ed432cb51138bcf09aa5e8a410dd4a1e204")
         (fun a => Returned a)
         (fun x => int_of_float (x * 1000000000000000000)%float)
         (fun _ => Returned "0x71C7656EC7ab88b098defB751B7401B5f6d8976F")
         (fun _ _ => Returned "0xf86c0785")
         (fun _ _ => Returned "0x1b2c3d").

Definition web3_down : Web3 :=
  mkWeb3 false refused (fun _ => refused) (fun _ => refused) refused refused
         (fun _ => refused) (fun a => Returned a)
         (fun x => int_of_float (x * 1000000000000000000)%float)
         (fun _ => Returned "0x71C7656EC7ab88b098defB751B7401B5f6d8976F")
         (fun _ _ => Returned "0xf86c0785")
         (fun _ _ => Returned "0x1b2c3d").

Definition solana_up : SolanaRpc :=
  mkSolana (fun _ => Returned (Some 2500000000)) (Returned "9sHcv6xw")
           (fun _ => Returned "5VERv8NMvzbJMEkV")
           (fun a => Returned a) (fun k => Returned k) (fun k => Returned k)
           (fun _ => "EzGfEo4qV5FnQ3p6Qr5iFkT3n6rqvWq6dZqCqP5uyPxC")
           (fun _ _ _ => Returned "transfer_ix") (fun _ _ _ => "unsigned_tx")
           (fun _ _ => Returned "signed_tx") (fun _ _ => Returned "3yZe7d").

Definition solana_down : SolanaRpc :=
  mkSolana (fun _ => refused) refused (fun _ => refused)
           (fun a => Returned a) (fun k => Returned k) (fun k => Returned k)
           (fun _ => "EzGfEo4qV5FnQ3p6Qr5iFkT3n6rqvWq6dZqCqP5uyPxC")
           (fun _ _ _ => Returned "transfer_ix") (fun _ _ _ => "unsigned_tx")
           (fun _ _ => Returned "signed_tx") (fun _ _ => Returned "3yZe7d").

Definition cdp_wallet : CdpWallet :=
  mkCdpWallet "wallet-1" (Some "0x4838B106FCe9647Bdf1E7877BF73cE8B0BAD5f97").

Definition cdp_up : Cdp :=
  mkCdp (fun _ => Returned cdp_wallet) (fun _ => Returned 10%float)
        (fun _ _ _ => Returned "0x9f8e7d") (Returned tt) (fun _ => Returned "0x4a5b6c").

Definition cdp_down : Cdp :=
  mkCdp (fun _ => refused) (fun _ => refused) (fun _ _ _ => refused) refused
        (fun _ => refused).

(** Every service answers. *)
Definition online (env : string -> option string) : World :=
  mkWorld env 0 web3_up solana_up cdp_up.

(** No service answers. *)
Definition offline (env : string -> option string) : World :=
  mkWorld env 0 web3_down solana_down cdp_down.

(** Every account identifier and API credential is set; no private key is. *)
Definition env_without_keys (name : string) : option string :=
  if String.eqb name "ETH_ADDRESS" then Some "0xd8dA6BF26964aF9D7eEd9e03E53415D37aA96045"
  else if String.eqb name "SOLANA_WALLET_ADDRESS"
  then Some "EzGfEo4qV5FnQ3p6Qr5iFkT3n6rqvWq6dZqCqP5uyPxC"
  else if String.eqb name "COINBASE_WALLET_ID" then Some "wallet-1"
  else if String.eqb name "COINBASE_API_KEY" then Some "key"
  else if String.eqb name "COINBASE_API_SECRET" then Some "secret"
  else None.

(** As above, with both private keys set. *)
Definition env_with_keys (name : string) : option string :=
  if String.eqb name "ETH_PRIVATE_KEY" then Some "0x4c0883a6"
  else if String.eqb name "SOLANA_PRIVATE_KEY" then Some "3Mc6vR"
  else env_without_keys name.

Definition default_config : SensorConfig := mkConfig None None None None.

Definition base_at (cls asset : string) (bal : float) : WalletBase :=
  mkBase cls [] 0.5%float asset bal bal [].

Definition ethereum_reader : Wallet :=
  Ethereum (mkObj (base_at "WalletEthereum" "eth" 10)
                  (WalletEthereum.mkFields "https://eth.llamarpc.com"
                     "0xd8dA6BF26964aF9D7eEd9e03E53415D37aA96045" None None false)).

Definition ethereum_signer : Wallet :=
  Ethereum (mkObj (base_at "WalletEthereum" "eth" 10)
                  (WalletEthereum.mkFields "https://eth.llamarpc.com"
                     "0xd8dA6BF26964aF9D7eEd9e03E53415D37aA96045" (Some "0x4c0883a6")
                     (Some (WalletEthereum.mkAccount "0x4c0883a6"
                              "0x71C7656EC7ab88b098defB751B7401B5f6d8976F"))
                     false)).

Definition solana_reader : Wallet :=
  Solana (mkObj (base_at "WalletSolana" "sol" 2.5)
                (WalletSolana.mkFields "https://api.mainnet-beta.solana.com"
                   "EzGfEo4qV5FnQ3p6Qr5iFkT3n6rqvWq6dZqCqP5uyPxC" None None
                   "EzGfEo4qV5FnQ3p6Qr5iFkT3n6rqvWq6dZqCqP5uyPxC")).

Definition coinbase_wallet : Wallet :=
  Coinbase (mkObj (base_at "WalletCoinbase" "eth" 10)
                  (WalletCoinbase.mkFields (Some "wallet-1") cdp_wallet)).

End Demo.

(** ** Running the methods *)

Ltac run :=
  cbv beta iota zeta delta
    [transfer sign_message fetch_balance poll record flush dispatch construct
     WalletEthereum.transfer WalletEthereum.sign_message WalletEthereum.fetch_balance
     WalletEthereum.init
     WalletSolana.transfer WalletSolana.sign_message WalletSolana.fetch_balance
     WalletSolana.init
     WalletCoinbase.transfer WalletCoinbase.sign_message WalletCoinbase.fetch_balance
     WalletCoinbase.init WalletCoinbase.set_wallet WalletCoinbase.get_wallet_address
     _poll raw_to_text formatted_latest_buffer
     bind try_except get modify ret raise net lib final out calls on_base base ext].

(** Splits on the answers the world gives, one after the other. *)
Ltac answers :=
  repeat match goal with
         | |- context [match ?x with _ => _ end] =>
             lazymatch x with
             | context [match _ with _ => _ end] => fail
             | _ => destruct x eqn:?; run
             end
         end.

(** ** What the claims speak of *)

(** The world with one more environment variable set. *)
Definition setenv (name value : string) (W : World) : World :=
  mkWorld (fun n => if String.eqb n name then Some value else environ W n)
          (randint_0_10 W) (web3 W) (solana W) (cdp W).

(** A call came back with [status = "failed"] and the network was not used. *)
Definition failed_offline (r : Res Wallet Dict) : Prop :=
  status_of (out r) = Some (PStr "failed") /\ calls r = [].

(** A call came back with the read-only error and the network was not used. *)
Definition refused_read_only (to_address : string) (amount : float) (asset : string)
    (r : Res Wallet Dict) : Prop :=
  out r = Returned (failed_transfer amount asset to_address read_only_error)
  /\ calls r = [].

(** Whether the library accepts the recipient, and the instruction for zero
    lamports, before [transfer] turns to the network. *)
Definition passes_local_checks (W : World) (to_address : string) (w : Wallet) : bool :=
  match w with
  | Ethereum _ =>
      match w3_to_checksum_address (web3 W) to_address with
      | Returned _ => true
      | Raised _ => false
      end
  | Solana o =>
      match WalletSolana.keypair (ext o), sol_pubkey_from_string (solana W) to_address with
      | Some kp, Returned pk =>
          match sol_transfer_ix (solana W) (sol_keypair_pubkey (solana W) kp) pk 0 with
          | Returned _ => true
          | Raised _ => false
          end
      | _, _ => false
      end
  | Coinbase _ => true
  end.

Definition null_address : string := "0x0000000000000000000000000000000000000000".

(** ** Decimal text *)

Definition is_digit (c : ascii) : bool :=
  match NilEmpty.uint_of_string (String c EmptyString) with
  | Some _ => true
  | None => false
  end.

Fixpoint all_digits (s : string) : bool :=
  match s with
  | EmptyString => true
  | String c t => is_digit c && all_digits t
  end.

(** The number a text of digits stands for. *)
Definition number_of (s : string) : option N :=
  option_map N.of_uint (NilEmpty.uint_of_string s).

(** ** The buffer of receipts *)

(** [float(f"{d:.5f}")]: the amount a receipt of delta [d] stands for. *)
Definition rounded5 (d : float) : float :=
  match Prim2SF d with
  | S754_nan => nan
  | S754_infinity s => SF2Prim (S754_infinity s)
  | S754_zero s => float_of_decimal s 0 5
  | S754_finite s m e => float_of_decimal s (Z.to_N (scaled5 m e)) 5
  end.

(** The same amount in hundred-thousandths, exactly; [None] when infinite. *)
Definition amount5 (d : float) : option Z :=
  match Prim2SF d with
  | S754_zero _ => Some 0
  | S754_finite s m e => Some (if s then - scaled5 m e else scaled5 m e)
  | _ => None
  end.

(** [sum] in the order of the list, starting from [0.0], in binary64. *)
Definition float_sum (xs : list float) : float :=
  fold_left PrimFloat.add xs 0%float.

(** The exact sum of amounts given in hundred-thousandths. *)
Fixpoint exact_sum (ds : list float) : option Z :=
  match ds with
  | [] => Some 0
  | d :: ds' =>
      match amount5 d, exact_sum ds' with
      | Some a, Some t => Some (a + t)
      | _, _ => None
      end
  end.

(** The messages of receipts with the given time stamps and deltas. *)
Definition buffered (tds : list (float * float)) : list Message :=
  map (fun td => mkMessage (fst td) (format_5f (snd td))) tds.

Definition positive (d : float) : bool := (0 <? d)%float.

(** A buffer as [raw_to_text] fills it: every message is the text of a
    positive delta. *)
Definition recorded (w : Wallet) : Prop :=
  exists tds, Forall (fun td => positive (snd td) = true) tds
              /\ messages (wallet_base w) = buffered tds.

(** [raw_to_text] on each input in turn; an input is the reading of the clock
    and what [_poll] returned. *)
Fixpoint record_all (rs : list (float * (float * float))) (w : Wallet) : Wallet :=
  match rs with
  | [] => w
  | (now, raw_input) :: rs' => record_all rs' (final (record now raw_input w))
  end.

(** The time stamps and deltas of the inputs that make a receipt. *)
Definition receipts (rs : list (float * (float * float))) : list (float * float) :=
  map (fun r => (fst r, snd (snd r))) (filter (fun r => positive (snd (snd r))) rs).

(** The wallet after a flush that found [ms] in the buffer and summed [total]. *)
Definition flushed (total : float) (stamp : float) (w : Wallet) : Wallet :=
  let f F (o : Obj F) :=
    mkObj (set_messages []
             (add_input (mkIOInput (class_name (base o))
                                   (summary_text total (primary_asset (base o))) stamp)
                        (base o)))
          (ext o) in
  match w with
  | Ethereum o => Ethereum (f _ o)
  | Solana o => Solana (f _ o)
  | Coinbase o => Coinbase (f _ o)
  end.

(** What [formatted_latest_buffer] returns for a summary line. *)
Definition report (w : Wallet) (line : string) : string :=
  buffer_text (class_name (wallet_base w)) line.

(** The claim of C1 on one buffer of receipts: the flush reports the exact
    sum of the amounts and empties the buffer. *)
Definition reports_exact_sum (tds : list (float * float)) (w : Wallet) : Prop :=
  exists total,
    exact_sum (map snd tds) = Some total
    /\ out (flush w)
       = Returned (Some (report w (summary_line (fixed5 total)
                                                (primary_asset (wallet_base w)))))
    /\ messages (wallet_base (final (flush w))) = [].

(** What [fetch_balance(primary_asset)] yields in world [W]: the sample of
    the cycle. *)
Definition sample (W : World) (w : Wallet) : outcome float :=
  out (fetch_balance W (primary_asset (wallet_base w)) w).

Module Large.

(** A Coinbase wallet that counts in gwei and starts empty. *)
Definition wallet : Wallet :=
  Coinbase (mkObj (Demo.base_at "WalletCoinbase" "gwei" 0)
                  (WalletCoinbase.mkFields (Some "wallet-1") Demo.cdp_wallet)).

(** The custodial service reporting balance [x]. *)
Definition reporting (x : float) : World :=
  mkWorld Demo.env_without_keys 0 Demo.web3_up Demo.solana_up
          (mkCdp (fun _ => Returned Demo.cdp_wallet) (fun _ => Returned x)
                 (fun _ _ _ => Returned "0x9f8e7d") (Returned tt)
                 (fun _ => Returned "0x4a5b6c")).

(** [float("0.00001")] and [float("100000000000.00001")]. *)
Definition small_balance : float := 0x1.4f8b588e368f1p-17%float.
Definition large_balance : float := 0x1.74876e8000001p+36%float.

(** Two cycles: the balance goes from 0 to 0.00001 gwei, then to
    100000000000.00001 gwei. *)
Definition after_two_cycles : Wallet :=
  cycles [(reporting small_balance, 1700000000%float);
          (reporting large_balance, 1700000001%float)] wallet.

(** The two deltas [_poll] computed. *)
Definition deltas : list (float * float) :=
  [(1700000000%float, small_balance); (1700000001%float, 100000000000%float)].

End Large.

(** What [_poll] returns in each cycle of the polling loop. *)
Fixpoint observe (Ws : list (World * float)) (w : Wallet)
  : list (outcome (float * float)) :=
  match Ws with
  | [] => []
  | (W, now) :: Ws' => out (poll W w) :: observe Ws' (cycle W now w)
  end.

Module Scenario.

(** The node reporting a balance of [wei]. *)
Definition node (wei : Z) : World :=
  mkWorld Demo.no_environ 0
          (mkWeb3 true (Returned 19000000) (fun _ => Returned wei)
                  (fun _ => Returned 7) (Returned 20000000000) (Returned 1)
                  (fun _ => Returned "0x5c504ed432cb51138bcf09aa5e8a410dd4a1e204")
                  (fun a => Returned a)
                  (fun x => int_of_float (x * 1000000000000000000)%float)
                  (fun _ => Returned "0x71C7656EC7ab88b098defB751B7401B5f6d8976F")
                  (fun _ _ => Returned "0xf86c0785")
                  (fun _ _ => Returned "0x1b2c3d"))
          Demo.solana_up Demo.cdp_up.

(** Balances of 10.0, 10.0, 12.5, 12.5 and 11.0 ETH, one per cycle. *)
Definition five_cycles : list (World * float) :=
  [(node 10000000000000000000, 1700000001%float);
   (node 10000000000000000000, 1700000002%float);
   (node 12500000000000000000, 1700000003%float);
   (node 12500000000000000000, 1700000004%float);
   (node 11000000000000000000, 1700000005%float)].

(** An Ethereum wallet on asset "eth" whose previous balance is 10.0. *)
Definition start : Wallet := Demo.ethereum_reader.

Definition after_cycle_3 : Wallet := cycles (firstn 3 five_cycles) start.

Definition after_flush : Wallet := final (flush after_cycle_3).

Definition after_cycle_5 : Wallet := cycles (skipn 3 five_cycles) after_flush.

End Scenario.

(** [0.000005] as Python reads it: the float just above five millionths. *)
Definition half_unit : float := 0x1.4f8b588e368f1p-18%float.

(** ** Shapes of results and states reached *)

Definition has_key (k : string) (d : Dict) : bool :=
  match dict_get k d with
  | Some _ => true
  | None => false
  end.

(** The result dictionary of a transfer that did not go through. *)
Definition is_failed_transfer (to_address : string) (amount : float) (asset : string)
    (d : Dict) : Prop :=
  exists error, d = failed_transfer amount asset to_address error.

(** The result dictionary of a transfer that was handed to the service. *)
Definition is_sent_transfer (to_address : string) (amount : float) (asset : string)
    (w : Wallet) (d : Dict) : Prop :=
  exists tx from_address,
    d = sent_transfer tx (match w with Coinbase _ => "completed" | _ => "pending" end)
                      amount asset to_address from_address.

(** The call that hands a transaction to the service, with the answer of the
    service to it. *)
Definition submission (W : World) (to_address : string) (amount : float) (asset : string)
    (w : Wallet) (c : NetCall) : option (outcome string) :=
  match w, c with
  | Ethereum _, W3SendRawTransaction raw => Some (w3_send_raw_transaction (web3 W) raw)
  | Solana _, SolSendTransaction tx => Some (sol_send_transaction (solana W) tx)
  | Coinbase _, CdpTransfer destination amount' asset' =>
      Some (cdp_transfer (cdp W) amount' asset' destination)
  | _, _ => None
  end.

(** [balance] and [balance_previous] agree. *)
Definition tracked (w : Wallet) : Prop :=
  balance (wallet_base w) = balance_previous (wallet_base w).

(** The wallets a program can hold: constructed, then used through the
    methods of the class. *)
Inductive reachable : Wallet -> Prop :=
| reach_construct v W config w :
    out (construct v W config) = Returned w -> reachable w
| reach_poll W w : reachable w -> reachable (final (poll W w))
| reach_record now raw_input w :
    reachable w -> reachable (final (record now raw_input w))
| reach_flush w : reachable w -> reachable (final (flush w))
| reach_transfer W to_address amount asset w :
    reachable w -> reachable (final (transfer W to_address amount asset w))
| reach_sign W msg w : reachable w -> reachable (final (sign_message W msg w)).

(** Whether the balance read of an Ethereum or Solana wallet fails in [W]. *)
Definition read_fails (W : World) (w : Wallet) : bool :=
  match w with
  | Ethereum o =>
      match w3_block_number (web3 W),
            w3_get_balance (web3 W) (WalletEthereum.ACCOUNT_ADDRESS (ext o)) with
      | Returned _, Returned _ => false
      | _, _ => true
      end
  | Solana o =>
      match sol_get_balance (solana W) (WalletSolana.pubkey (ext o)) with
      | Returned (Some _) => false
      | _ => true
      end
  | Coinbase _ => false
  end.

(** [get_wallet_address] of whichever wallet this is. *)
Definition get_wallet_address (w : Wallet) : outcome string :=
  match w with
  | Ethereum o => Returned (WalletEthereum.get_wallet_address o)
  | Solana o => Returned (WalletSolana.get_wallet_address o)
  | Coinbase o => WalletCoinbase.get_wallet_address o
  end.

(** Worlds whose library rejects the private key that is set. *)
Module Rejected.

Definition ethereum_key : World :=
  mkWorld Demo.env_with_keys 0
    (mkWeb3 true (Returned 19000000) (fun _ => Returned 10000000000000000000)
       (fun _ => Returned 7) (Returned 20000000000) (Returned 1)
       (fun _ => Returned "0x5c504ed432cb51138bcf09aa5e8a410dd4a1e204")
       (fun a => Returned a)
       (fun x => int_of_float (x * 1000000000000000000)%float)
       (fun _ => Raised (mkExn "ValueError"
                           "The private key must be exactly 32 bytes long"))
       (fun _ _ => Returned "0xf86c0785") (fun _ _ => Returned "0x1b2c3d"))
    Demo.solana_up Demo.cdp_up.

Definition solana_key : World :=
  mkWorld Demo.env_with_keys 0 Demo.web3_up
    (mkSolana (fun _ => Returned (Some 2500000000)) (Returned "9sHcv6xw")
       (fun _ => Returned "5VERv8NMvzbJMEkV")
       (fun a => Returned a)
       (fun _ => Raised (mkExn "ValueError" "Invalid character"))
       (fun k => Returned k)
       (fun _ => "EzGfEo4qV5FnQ3p6Qr5iFkT3n6rqvWq6dZqCqP5uyPxC")
       (fun _ _ _ => Returned "transfer_ix") (fun _ _ _ => "unsigned_tx")
       (fun _ _ => Returned "signed_tx") (fun _ _ => Returned "3yZe7d"))
    Demo.cdp_up.

End Rejected.

(** * Properties of the code *)

(** ** Transfers and signatures leave the sampler and the buffer alone *)

Lemma transfer_final W to_address amount asset w :
  final (transfer W to_address amount asset w) = w.
Proof.
  destruct w as [o|o|o]; destruct o as [b f]; run; answers; reflexivity.
Qed.

Lemma sign_message_final W msg w :
  final (sign_message W msg w) = w.
Proof.
  destruct w as [o|o|o]; destruct o as [b f]; run; answers; reflexivity.
Qed.

Lemma transfer_blind W to_address amount asset bal prev ms w :
  out (transfer W to_address amount asset (with_tracking bal prev ms w))
    = out (transfer W to_address amount asset w)
  /\ calls (transfer W to_address amount asset (with_tracking bal prev ms w))
    = calls (transfer W to_address amount asset w).
Proof.
  destruct w as [o|o|o]; destruct o as [b f]; unfold with_tracking; run;
    answers; split; reflexivity.
Qed.

Lemma sign_message_blind W msg bal prev ms w :
  out (sign_message W msg (with_tracking bal prev ms w)) = out (sign_message W msg w)
  /\ calls (sign_message W msg (with_tracking bal prev ms w))
    = calls (sign_message W msg w).
Proof.
  destruct w as [o|o|o]; destruct o as [b f]; unfold with_tracking; run;
    answers; split; reflexivity.
Qed.

(** C9. For every backend variant and every input, [transfer] and
    [sign_message] leave the wallet object as it was, so [balance],
    [balance_previous] and [messages] are unchanged; and what they return and
    which network calls they issue is the same whatever those three
    attributes hold: they are neither written nor read. *)
Theorem transfer_and_sign_frame :
  forall (W : World) (to_address asset msg : string) (amount : float) (w : Wallet)
         (bal prev : float) (ms : list Message),
    let t := transfer W to_address amount asset in
    let s := sign_message W msg in
    (balance (wallet_base (final (t w))) = balance (wallet_base w)
     /\ balance_previous (wallet_base (final (t w))) = balance_previous (wallet_base w)
     /\ messages (wallet_base (final (t w))) = messages (wallet_base w))
    /\ (balance (wallet_base (final (s w))) = balance (wallet_base w)
        /\ balance_previous (wallet_base (final (s w))) = balance_previous (wallet_base w)
        /\ messages (wallet_base (final (s w))) = messages (wallet_base w))
    /\ (out (t (with_tracking bal prev ms w)) = out (t w)
        /\ calls (t (with_tracking bal prev ms w)) = calls (t w))
    /\ (out (s (with_tracking bal prev ms w)) = out (s w)
        /\ calls (s (with_tracking bal prev ms w)) = calls (s w)).
Proof.
  intros W to_address asset msg amount w bal prev ms t s. subst t s.
  rewrite transfer_final, sign_message_final.
  repeat split; try reflexivity;
    try apply transfer_blind; apply sign_message_blind.
Qed.

(** ** Balance reads that fail *)

Lemma ethereum_fetch_balance_returns W asset self :
  exists v, out (WalletEthereum.fetch_balance W asset self) = Returned v.
Proof.
  destruct self as [b f]; run; answers; eexists; reflexivity.
Qed.

Lemma ethereum_fetch_balance_recovers W asset self e :
  w3_get_balance (web3 W) (WalletEthereum.ACCOUNT_ADDRESS (ext self)) = Raised e ->
  out (WalletEthereum.fetch_balance W asset self) = Returned (balance (base self)).
Proof.
  intros H. destruct self as [b f]; run. simpl in H.
  destruct (w3_block_number (web3 W)); run; [rewrite H|]; reflexivity.
Qed.

Lemma solana_fetch_balance_returns W asset self :
  exists v, out (WalletSolana.fetch_balance W asset self) = Returned v.
Proof.
  destruct self as [b f]; run; answers; eexists; reflexivity.
Qed.

Lemma solana_fetch_balance_recovers W asset self e :
  sol_get_balance (solana W) (WalletSolana.pubkey (ext self)) = Raised e ->
  out (WalletSolana.fetch_balance W asset self) = Returned (balance (base self)).
Proof.
  intros H. destruct self as [b f]; run. simpl in H. rewrite H. reflexivity.
Qed.

Lemma coinbase_fetch_balance_propagates W asset self e :
  cdp_wallet_fetch (cdp W) (WalletCoinbase.COINBASE_WALLET_ID (ext self)) = Raised e ->
  out (WalletCoinbase.fetch_balance W asset self) = Raised e.
Proof.
  intros H. destruct self as [b f]; run. simpl in H. rewrite H. reflexivity.
Qed.

(** C2, on the code.  With no service answering, [fetch_balance] of the
    Ethereum and Solana wallets returns the last known balance, and that of
    the Coinbase wallet raises the connection error to its caller. *)
Theorem coinbase_fetch_balance_raises :
  out (fetch_balance (Demo.offline Demo.env_without_keys) "eth" Demo.ethereum_reader)
    = Returned 10%float
  /\ out (fetch_balance (Demo.offline Demo.env_without_keys) "sol" Demo.solana_reader)
    = Returned 2.5%float
  /\ out (fetch_balance (Demo.offline Demo.env_without_keys) "eth" Demo.coinbase_wallet)
    = Raised (mkExn "ConnectionError" "connection refused").
Proof.
  repeat split; reflexivity.
Qed.

(** ** Transfers of nothing *)

(** C3, refuted.  An Ethereum wallet that holds a key sends a transfer of 0
    to the network: four calls are issued and the result is pending. *)
Lemma transfer_zero_reaches_network :
  ~ failed_offline
      (transfer (Demo.online Demo.env_with_keys) null_address 0 "eth" Demo.ethereum_signer).
Proof.
  intros [H _]. vm_compute in H. discriminate H.
Qed.

Lemma transfer_zero_trace :
  let r := transfer (Demo.online Demo.env_with_keys) null_address 0 "eth"
                    Demo.ethereum_signer in
  status_of (out r) = Some (PStr "pending")
  /\ calls r = [W3GetTransactionCount "0x71C7656EC7ab88b098defB751B7401B5f6d8976F";
                W3GasPrice; W3ChainId; W3SendRawTransaction "0xf86c0785"].
Proof.
  split; reflexivity.
Qed.

(** C3, amended.  No backend looks at the amount before it acts.  A transfer
    of 0 comes back failed with no network call when the wallet is read-only
    or the library rejects the recipient; in every other case the network is
    called. *)
Theorem transfer_zero_not_validated :
  forall (W : World) (to_address asset : string) (w : Wallet),
    let r := transfer W to_address 0 asset w in
    if read_only w then refused_read_only to_address 0 asset r
    else if passes_local_checks W to_address w
         then exists c rest, calls r = c :: rest
         else failed_offline r.
Proof.
  intros W to_address asset w r. subst r.
  destruct w as [o|o|o]; destruct o as [b f]; destruct f; simpl;
    unfold refused_read_only, failed_offline.
  - destruct account; run; [|split; reflexivity].
    destruct (w3_to_checksum_address (web3 W) to_address); run;
      [|split; reflexivity].
    answers; eexists; eexists; reflexivity.
  - destruct keypair; run; [|split; reflexivity].
    destruct (sol_pubkey_from_string (solana W) to_address); run;
      [|split; reflexivity].
    change (int_of_float 0) with (@Returned Z 0); run.
    destruct (sol_transfer_ix (solana W) _ _ 0); run; [|split; reflexivity].
    answers; eexists; eexists; reflexivity.
  - run. answers; eexists; eexists; reflexivity.
Qed.

(** ** Wallets without a signing credential *)

Lemma coinbase_needs_credentials W config :
  has_signing_credential VCoinbase W = false ->
  out (construct VCoinbase W config)
    = Raised (mkExn "ValueError" "Missing Coinbase API credentials")
  /\ calls (construct VCoinbase W config) = [].
Proof.
  simpl. intros H. unfold construct, WalletCoinbase.init.
  replace (negb (truthy (environ W "COINBASE_API_KEY"))
           || negb (truthy (environ W "COINBASE_API_SECRET"))) with true
    by (now rewrite <- negb_andb, H).
  split; reflexivity.
Qed.

Lemma construct_without_key v W config w :
  has_signing_credential v W = false ->
  out (construct v W config) = Returned w ->
  variant_of w = v /\ read_only w = true.
Proof.
  intros Hk H. destruct v.
  - simpl in Hk. unfold construct in H; simpl out in H.
    revert H. unfold WalletEthereum.init. rewrite Hk. run.
    destruct (w3_is_connected (web3 W)); run; [|discriminate].
    destruct (w3_get_balance (web3 W) _); run; [|discriminate].
    intros H; injection H as <-. split; reflexivity.
  - simpl in Hk. unfold construct in H; simpl out in H.
    revert H. unfold WalletSolana.init. rewrite Hk. run.
    destruct (negb (truthy (environ W "SOLANA_WALLET_ADDRESS"))); run; [discriminate|].
    destruct (sol_pubkey_from_string (solana W) _); run; [|discriminate].
    destruct (sol_get_balance (solana W) _) as [[value|]|]; run; try discriminate.
    intros H; injection H as <-. split; reflexivity.
  - destruct (coinbase_needs_credentials W config Hk) as [Ho _].
    rewrite Ho in H. discriminate H.
Qed.

Lemma transfer_read_only W to_address amount asset w :
  read_only w = true ->
  refused_read_only to_address amount asset (transfer W to_address amount asset w).
Proof.
  destruct w as [o|o|o]; destruct o as [b f]; destruct f; simpl; intros H.
  - destruct account; [discriminate|]. split; reflexivity.
  - destruct keypair; [discriminate|]. split; reflexivity.
  - discriminate.
Qed.

Lemma coinbase_transfer_calls W to_address amount asset o :
  exists rest,
    calls (transfer W to_address amount asset (Coinbase o))
      = CdpTransfer to_address amount asset :: rest.
Proof.
  destruct o as [b f]; run; answers; eexists; reflexivity.
Qed.

(** C4.  For every backend variant, a wallet constructed without its signing
    credential answers every transfer with the failed result that carries the
    error "No private key configured (read-only mode)", calls no network and
    stays as it was.  The Ethereum and the Solana wallet are constructed
    without their private key and then behave so; the Coinbase wallet is not
    constructed at all without its API credentials
    ([coinbase_needs_credentials]), so that no Coinbase wallet is in that
    case. *)
Theorem transfer_without_credential :
  forall (v : Variant) (W W' : World) (config : SensorConfig) (w : Wallet)
         (to_address asset : string) (amount : float),
    has_signing_credential v W = false ->
    out (construct v W config) = Returned w ->
    let r := transfer W' to_address amount asset w in
    out r = Returned (failed_transfer amount asset to_address read_only_error)
    /\ status_of (out r) = Some (PStr "failed")
    /\ calls r = []
    /\ final r = w.
Proof.
  intros v W W' config w to_address asset amount Hk Hc r. subst r.
  destruct (construct_without_key v W config w Hk Hc) as [_ Hr].
  destruct (transfer_read_only W' to_address amount asset w Hr) as [Ho Hn].
  rewrite Ho. repeat split; [exact Hn | apply transfer_final].
Qed.

Lemma transfer_without_credential_witness :
  (let r := transfer (Demo.online Demo.env_without_keys) null_address 1 "eth"
                     Demo.ethereum_reader in
   out r = Returned (failed_transfer 1 "eth" null_address read_only_error)
   /\ status_of (out r) = Some (PStr "failed")
   /\ calls r = []
   /\ final r = Demo.ethereum_reader)
  /\ (let r := transfer (Demo.online Demo.env_without_keys)
                        "11111111111111111111111111111111" 1 "sol" Demo.solana_reader in
      out r = Returned (failed_transfer 1 "sol" "11111111111111111111111111111111"
                                        read_only_error)
      /\ status_of (out r) = Some (PStr "failed")
      /\ calls r = []
      /\ final r = Demo.solana_reader).
Proof.
  split.
  - apply (transfer_without_credential VEthereum (Demo.online Demo.env_without_keys)
             (Demo.online Demo.env_without_keys) Demo.default_config
             Demo.ethereum_reader null_address "eth" 1).
    + reflexivity.
    + vm_compute. reflexivity.
  - apply (transfer_without_credential VSolana (Demo.online Demo.env_without_keys)
             (Demo.online Demo.env_without_keys) Demo.default_config
             Demo.solana_reader "11111111111111111111111111111111" "sol" 1).
    + reflexivity.
    + vm_compute. reflexivity.
Defined.

(** ** Construction with a missing identifier *)

Lemma solana_needs_address W config :
  truthy (environ W "SOLANA_WALLET_ADDRESS") = false ->
  out (construct VSolana W config)
    = Raised (mkExn "ValueError" "SOLANA_WALLET_ADDRESS environment variable is not set")
  /\ calls (construct VSolana W config) = [].
Proof.
  intros H. unfold construct, WalletSolana.init. rewrite H. split; reflexivity.
Qed.

Lemma coinbase_needs_wallet_id W config :
  truthy (environ W "COINBASE_WALLET_ID") = false ->
  exists e, out (construct VCoinbase W config) = Raised e
            /\ exn_class e = "ValueError"
            /\ calls (construct VCoinbase W config) = [].
Proof.
  intros H. unfold construct, WalletCoinbase.init. rewrite H.
  destruct (negb (truthy (environ W "COINBASE_API_KEY"))
            || negb (truthy (environ W "COINBASE_API_SECRET")));
    eexists; repeat split; reflexivity.
Qed.

Lemma ethereum_default_address W config :
  environ W "ETH_ADDRESS" = None ->
  construct VEthereum W config
    = construct VEthereum (setenv "ETH_ADDRESS" WalletEthereum.default_address W) config.
Proof.
  intros H. unfold construct, WalletEthereum.init, environ_get, setenv. simpl.
  rewrite H. reflexivity.
Qed.

(** The Ethereum wallet without a private key is constructed as soon as the
    node is connected and answers the balance read. *)
Lemma ethereum_constructs_read_only W config wei :
  has_signing_credential VEthereum W = false ->
  w3_is_connected (web3 W) = true ->
  w3_get_balance (web3 W) (environ_get W "ETH_ADDRESS" WalletEthereum.default_address)
    = Returned wei ->
  exists w,
    out (construct VEthereum W config) = Returned w
    /\ read_only w = true
    /\ get_wallet_address w
       = Returned (environ_get W "ETH_ADDRESS" WalletEthereum.default_address)
    /\ balance (wallet_base w) = from_wei_ether wei.
Proof.
  simpl. intros Hk Hc Hb. unfold construct, WalletEthereum.init. rewrite Hk. run.
  rewrite Hc. run. rewrite Hb. run. eexists. repeat split.
Qed.

(** The Solana wallet without a private key is constructed as soon as its
    address is set and parses and the node answers the balance read. *)
Lemma solana_constructs_read_only W config address pk lamports :
  has_signing_credential VSolana W = false ->
  environ W "SOLANA_WALLET_ADDRESS" = Some address ->
  address <> "" ->
  sol_pubkey_from_string (solana W) address = Returned pk ->
  sol_get_balance (solana W) pk = Returned (Some lamports) ->
  exists w,
    out (construct VSolana W config) = Returned w
    /\ read_only w = true
    /\ get_wallet_address w = Returned address
    /\ balance (wallet_base w) = WalletSolana.lamports_to_sol lamports.
Proof.
  simpl. intros Hk Ha Hne Hp Hb. unfold construct, WalletSolana.init.
  rewrite Hk, Ha.
  assert (Ht : truthy (Some address) = true).
  { simpl. destruct (String.eqb_spec address ""); [contradiction | reflexivity]. }
  rewrite Ht. run. cbn [getattr]. rewrite Hp. run. rewrite Hb. run.
  eexists. repeat split.
Qed.

(** C7, refuted.  With no environment variable set at all and the node
    answering, the Ethereum wallet is constructed: it watches the built-in
    default address, in read-only mode. *)
Lemma ethereum_constructs_without_address :
  ~ (exists e,
        out (construct VEthereum (Demo.online Demo.no_environ) Demo.default_config)
          = Raised e).
Proof.
  intros [e H]. vm_compute in H. discriminate H.
Qed.

Lemma ethereum_constructed_without_address :
  out (construct VEthereum (Demo.online Demo.no_environ) Demo.default_config)
    = Returned Demo.ethereum_reader.
Proof.
  vm_compute. reflexivity.
Qed.

(** C7, amended.  When the account identifier is absent, construction of the
    Solana and of the Coinbase wallet raises ValueError before any network
    call, and the Ethereum wallet is constructed exactly as if [ETH_ADDRESS]
    held the built-in default address.  The absence of the private key is
    never fatal by itself: without it the Ethereum wallet is constructed, in
    read-only mode, whenever the node is connected and answers the first
    balance read, also when [ETH_ADDRESS] is absent too; and the Solana wallet
    is constructed, in read-only mode, whenever its address is set and parses
    and the node answers the first balance read.  The Coinbase wallet has no
    read-only mode: without its API credentials its construction raises. *)
Theorem construction_without_identifier :
  forall (W : World) (config : SensorConfig),
    (truthy (environ W "SOLANA_WALLET_ADDRESS") = false ->
     out (construct VSolana W config)
       = Raised (mkExn "ValueError"
                   "SOLANA_WALLET_ADDRESS environment variable is not set")
     /\ calls (construct VSolana W config) = [])
    /\ (truthy (environ W "COINBASE_WALLET_ID") = false ->
        exists e, out (construct VCoinbase W config) = Raised e
                  /\ exn_class e = "ValueError"
                  /\ calls (construct VCoinbase W config) = [])
    /\ (environ W "ETH_ADDRESS" = None ->
        construct VEthereum W config
          = construct VEthereum
              (setenv "ETH_ADDRESS" WalletEthereum.default_address W) config)
    /\ (has_signing_credential VEthereum W = false ->
        w3_is_connected (web3 W) = true ->
        forall wei,
          w3_get_balance (web3 W)
                         (environ_get W "ETH_ADDRESS" WalletEthereum.default_address)
            = Returned wei ->
          exists w,
            out (construct VEthereum W config) = Returned w
            /\ read_only w = true
            /\ get_wallet_address w
               = Returned (environ_get W "ETH_ADDRESS" WalletEthereum.default_address)
            /\ balance (wallet_base w) = from_wei_ether wei)
    /\ (has_signing_credential VSolana W = false ->
        forall address pk lamports,
          environ W "SOLANA_WALLET_ADDRESS" = Some address ->
          address <> "" ->
          sol_pubkey_from_string (solana W) address = Returned pk ->
          sol_get_balance (solana W) pk = Returned (Some lamports) ->
          exists w,
            out (construct VSolana W config) = Returned w
            /\ read_only w = true
            /\ get_wallet_address w = Returned address
            /\ balance (wallet_base w) = WalletSolana.lamports_to_sol lamports)
    /\ (has_signing_credential VCoinbase W = false ->
        out (construct VCoinbase W config)
          = Raised (mkExn "ValueError" "Missing Coinbase API credentials")
        /\ calls (construct VCoinbase W config) = []).
Proof.
  intros W config.
  split; [apply solana_needs_address|].
  split; [apply coinbase_needs_wallet_id|].
  split; [apply ethereum_default_address|].
  split; [intros Hk Hc wei Hb; now apply ethereum_constructs_read_only|].
  split; [intros Hk address pk lamports Ha Hne Hp Hb;
          now apply (solana_constructs_read_only W config address pk lamports)|].
  apply coinbase_needs_credentials.
Qed.

Lemma construction_without_identifier_witness :
  (out (construct VSolana (Demo.online Demo.no_environ) Demo.default_config)
     = Raised (mkExn "ValueError" "SOLANA_WALLET_ADDRESS environment variable is not set")
   /\ calls (construct VSolana (Demo.online Demo.no_environ) Demo.default_config) = [])
  /\ (exists w,
         out (construct VEthereum (Demo.online Demo.no_environ) Demo.default_config)
           = Returned w
         /\ read_only w = true
         /\ get_wallet_address w = Returned WalletEthereum.default_address
         /\ balance (wallet_base w) = from_wei_ether 10000000000000000000)
  /\ (exists w,
         out (construct VSolana (Demo.online Demo.env_without_keys) Demo.default_config)
           = Returned w
         /\ read_only w = true
         /\ get_wallet_address w = Returned "EzGfEo4qV5FnQ3p6Qr5iFkT3n6rqvWq6dZqCqP5uyPxC"
         /\ balance (wallet_base w) = WalletSolana.lamports_to_sol 2500000000).
Proof.
  pose proof (construction_without_identifier (Demo.online Demo.no_environ)
                Demo.default_config) as (A & _ & _ & B & _).
  pose proof (construction_without_identifier (Demo.online Demo.env_without_keys)
                Demo.default_config) as (_ & _ & _ & _ & C & _).
  split; [apply A; reflexivity|].
  split; [apply (B eq_refl eq_refl 10000000000000000000 eq_refl)|].
  apply (C eq_refl "EzGfEo4qV5FnQ3p6Qr5iFkT3n6rqvWq6dZqCqP5uyPxC"
           "EzGfEo4qV5FnQ3p6Qr5iFkT3n6rqvWq6dZqCqP5uyPxC" 2500000000 eq_refl).
  - discriminate.
  - reflexivity.
  - reflexivity.
Defined.

(** ** Reading back what [format_5f] wrote *)

Section DecimalText.

Local Open Scope nat_scope.

Lemma uint_of_string_cons c t :
  NilEmpty.uint_of_string (String c t)
    = DecimalString.uint_of_char c (NilEmpty.uint_of_string t).
Proof. reflexivity. Qed.

Lemma is_digit_char c d :
  is_digit c = true -> exists d', DecimalString.uint_of_char c (Some d) = Some d'.
Proof.
  unfold is_digit. rewrite uint_of_string_cons. simpl NilEmpty.uint_of_string.
  destruct c as [[|] [|] [|] [|] [|] [|] [|] [|]]; simpl; intros H;
    try discriminate H; eexists; reflexivity.
Qed.

Lemma char_is_digit c d d' :
  DecimalString.uint_of_char c d = Some d' -> is_digit c = true.
Proof.
  destruct d as [d|]; [|discriminate]. unfold is_digit.
  rewrite uint_of_string_cons. simpl NilEmpty.uint_of_string.
  destruct c as [[|] [|] [|] [|] [|] [|] [|] [|]]; simpl; intros H;
    try discriminate H; reflexivity.
Qed.

Lemma all_digits_parse s :
  all_digits s = true <-> exists d, NilEmpty.uint_of_string s = Some d.
Proof.
  induction s as [|c t IH]; simpl all_digits.
  - split; [intros _; eexists; reflexivity | reflexivity].
  - rewrite uint_of_string_cons, andb_true_iff, IH. split.
    + intros [Hc [d Hd]]. rewrite Hd. now apply is_digit_char.
    + intros [d Hd]. split; [now apply char_is_digit in Hd|].
      destruct (NilEmpty.uint_of_string t); [eexists; reflexivity | discriminate].
Qed.

Lemma all_digits_app s t :
  all_digits (s ++ t) = all_digits s && all_digits t.
Proof.
  induction s as [|c s IH]; simpl; [reflexivity|]. now rewrite IH, andb_assoc.
Qed.

Lemma all_digits_zfill k s : all_digits (zfill k s) = all_digits s.
Proof. induction k; simpl; [reflexivity | assumption]. Qed.

Lemma length_zfill k s : String.length (zfill k s) = k + String.length s.
Proof. induction k; simpl; [reflexivity | now rewrite IHk]. Qed.

Lemma number_of_zero s : number_of (String "0" s) = number_of s.
Proof.
  unfold number_of. rewrite uint_of_string_cons.
  destruct (NilEmpty.uint_of_string s); reflexivity.
Qed.

Lemma number_of_zfill k s : number_of (zfill k s) = number_of s.
Proof.
  induction k; simpl zfill; [reflexivity | now rewrite number_of_zero].
Qed.

Lemma number_of_digits6 n : (0 <= n)%Z -> number_of (digits6 n) = Some (Z.to_N n).
Proof.
  intros _. unfold digits6. rewrite number_of_zfill. unfold number_of.
  rewrite NilEmpty.usu. simpl. now rewrite DecimalN.Unsigned.of_to.
Qed.

Lemma all_digits_digits6 n : all_digits (digits6 n) = true.
Proof.
  unfold digits6. rewrite all_digits_zfill. apply all_digits_parse.
  eexists. apply NilEmpty.usu.
Qed.

Lemma length_digits6 n : 6 <= String.length (digits6 n).
Proof. unfold digits6. rewrite length_zfill. lia. Qed.

Lemma is_digit_not_point c : is_digit c = true -> Ascii.eqb c "." = false.
Proof.
  destruct c as [[|] [|] [|] [|] [|] [|] [|] [|]]; intros H;
    try discriminate H; reflexivity.
Qed.

(** The point goes in after [k] digits and is found there again. *)
Lemma split_insert_point s :
  all_digits s = true ->
  forall k, k <= String.length s ->
  exists i f, s = i ++ f /\ String.length i = k
              /\ split_point (insert_point k s) = (i, Some f).
Proof.
  induction s as [|c t IH]; intros Hd k Hk.
  - simpl in Hk. assert (k = 0) by lia. subst k.
    exists EmptyString, EmptyString. repeat split.
  - simpl in Hd. apply andb_true_iff in Hd as [Hc Ht]. destruct k as [|k].
    + exists EmptyString, (String c t). repeat split.
    + simpl in Hk. destruct (IH Ht k) as (i & f & E & L & S); [lia|].
      exists (String c i), f. simpl. rewrite (is_digit_not_point c Hc), S, L.
      repeat split. now rewrite E.
Qed.

Lemma digit_first_body c t :
  is_digit c = true ->
  float_of_string (String c t) = float_of_body false (String c t).
Proof.
  destruct c as [[|] [|] [|] [|] [|] [|] [|] [|]]; intros H;
    try discriminate H; reflexivity.
Qed.

Lemma digit_first_not_word c t :
  is_digit c = true ->
  String.eqb (String c t) "inf" = false /\ String.eqb (String c t) "nan" = false.
Proof.
  destruct c as [[|] [|] [|] [|] [|] [|] [|] [|]]; intros H;
    try discriminate H; split; reflexivity.
Qed.

Lemma length_app (s t : string) :
  String.length (s ++ t) = String.length s + String.length t.
Proof. induction s; simpl; [reflexivity | now rewrite IHs]. Qed.

(** [float] reads the text of [n / 10^5] as the float nearest to it. *)
Lemma float_of_string_fixed5 n :
  (0 <= n)%Z ->
  float_of_string (fixed5 n) = Some (float_of_decimal false (Z.to_N n) 5).
Proof.
  intros Hn. unfold fixed5.
  pose proof (length_digits6 n) as Hl.
  pose proof (all_digits_digits6 n) as Hd.
  pose proof (number_of_digits6 n Hn) as Hv.
  set (s := digits6 n) in *. clearbody s.
  destruct (split_insert_point s Hd (String.length s - 5)) as (i & f & E & L & S);
    [lia|].
  assert (Lf : String.length f = 5).
  { rewrite E, length_app in L. rewrite E, length_app in Hl. lia. }
  destruct i as [|c i]; [simpl in L; lia|].
  assert (Hc : is_digit c = true).
  { rewrite E in Hd. simpl in Hd. now apply andb_true_iff in Hd as [Hc _]. }
  assert (Hins : exists t, insert_point (String.length s - 5) s = String c t).
  { destruct (String.length s - 5) as [|k] eqn:K; [lia|].
    rewrite E. simpl. eexists; reflexivity. }
  destruct Hins as [t Ht]. rewrite Ht in *.
  rewrite (digit_first_body c t Hc). unfold float_of_body.
  destruct (digit_first_not_word c t Hc) as [-> ->].
  rewrite S. rewrite <- E.
  replace (String.length (String c i) + String.length f =? 0) with false
    by (symmetry; apply Nat.eqb_neq; simpl; lia).
  unfold number_of in Hv. destruct (NilEmpty.uint_of_string s) as [d|]; [|discriminate].
  simpl in Hv. injection Hv as ->. now rewrite Lf.
Qed.

End DecimalText.

(** ** Positive deltas and their text *)

Lemma positive_cases d :
  positive d = true ->
  (exists m e, Prim2SF d = S754_finite false m e) \/ Prim2SF d = S754_infinity false.
Proof.
  unfold positive. rewrite ltb_spec.
  change (Prim2SF 0) with (S754_zero false).
  destruct (Prim2SF d) as [s|s| |s m e]; simpl; try discriminate.
  - destruct s; [discriminate|]. now right.
  - destruct s; [discriminate|]. left. now exists m, e.
Qed.

Lemma div_half_even_nonneg num den :
  0 <= num -> 0 < den -> 0 <= div_half_even num den.
Proof.
  intros Hn Hd. unfold div_half_even.
  assert (0 <= num / den) by (apply Z.div_pos; lia).
  destruct (2 * (num mod den) <? den); [lia|].
  destruct (den <? 2 * (num mod den)); [lia|].
  destruct (Z.even (num / den)); lia.
Qed.

Lemma scaled5_nonneg m e : 0 <= scaled5 m e.
Proof.
  unfold scaled5. destruct (0 <=? e) eqn:He.
  - apply Z.leb_le in He. assert (0 < 2 ^ e) by (apply Z.pow_pos_nonneg; lia). nia.
  - apply Z.leb_gt in He. apply div_half_even_nonneg; [lia|].
    apply Z.pow_pos_nonneg; lia.
Qed.

(** The text of a positive delta reads back as the delta rounded to five
    decimals. *)
Lemma float_of_string_format d :
  positive d = true -> float_of_string (format_5f d) = Some (rounded5 d).
Proof.
  intros H. unfold format_5f, rounded5.
  destruct (positive_cases d H) as [(m & e & ->) | ->].
  - simpl sign_text. simpl append.
    apply float_of_string_fixed5, scaled5_nonneg.
  - reflexivity.
Qed.

(** ** Recording and flushing *)

Lemma sum_loop_buffered tds :
  Forall (fun td => positive (snd td) = true) tds ->
  forall acc,
    sum_loop acc (buffered tds)
      = Returned (fold_left PrimFloat.add (map (fun td => rounded5 (snd td)) tds) acc).
Proof.
  induction 1 as [|td tds Hd _ IH]; intros acc; simpl; [reflexivity|].
  rewrite (float_of_string_format _ Hd). apply IH.
Qed.

Lemma last_buffered tds td0 :
  timestamp (last (buffered tds) (mkMessage (fst td0) (format_5f (snd td0))))
    = fst (last tds td0).
Proof.
  induction tds as [|td tds IH]; [reflexivity|].
  destruct tds as [|td' tds]; [reflexivity|].
  change (last (buffered (td :: td' :: tds)) _)
    with (last (buffered (td' :: tds)) (mkMessage (fst td0) (format_5f (snd td0)))).
  exact IH.
Qed.

Lemma flush_empty w :
  messages (wallet_base w) = [] -> flush w = mkRes w (Returned None) [].
Proof.
  destruct w as [o|o|o]; destruct o as [b f]; simpl; intros H; run; simpl;
    rewrite H; reflexivity.
Qed.

Lemma flush_buffered w td tds :
  Forall (fun td => positive (snd td) = true) (td :: tds) ->
  messages (wallet_base w) = buffered (td :: tds) ->
  let total := float_sum (map (fun td => rounded5 (snd td)) (td :: tds)) in
  flush w
    = mkRes (flushed total (fst (last tds td)) w)
            (Returned (Some (report w (summary_text total (primary_asset (wallet_base w))))))
            [].
Proof.
  intros Hp Hm total.
  pose proof (sum_loop_buffered _ Hp 0%float) as Hs. fold (float_sum (map (fun td => rounded5 (snd td)) (td :: tds))) in Hs.
  fold total in Hs. rewrite <- Hm in Hs.
  pose proof (last_buffered tds td) as Hl.
  destruct w as [o|o|o]; destruct o as [b f]; simpl in Hm, Hs |- *; run; simpl;
    rewrite Hm in *; simpl buffered in *; cbv iota; rewrite Hs; simpl;
    rewrite Hl; reflexivity.
Qed.

Lemma record_messages now raw_input w :
  messages (wallet_base (final (record now raw_input w)))
    = (messages (wallet_base w)
         ++ (if positive (snd raw_input)
             then [mkMessage now (format_5f (snd raw_input))] else []))%list.
Proof.
  unfold positive.
  destruct w as [o|o|o]; destruct o as [b f]; run; unfold _raw_to_text;
    destruct (0 <? snd raw_input)%float; simpl; try reflexivity;
    now rewrite app_nil_r.
Qed.

Lemma record_all_messages rs :
  forall w,
    messages (wallet_base (record_all rs w))
      = (messages (wallet_base w) ++ buffered (receipts rs))%list.
Proof.
  induction rs as [|[now raw_input] rs IH]; intros w; simpl.
  - now rewrite app_nil_r.
  - rewrite IH, record_messages. unfold receipts. simpl.
    destruct (positive (snd raw_input)); simpl; rewrite <- app_assoc; reflexivity.
Qed.

Lemma receipts_positive rs :
  Forall (fun td => positive (snd td) = true) (receipts rs).
Proof.
  unfold receipts. apply Forall_forall. intros td Hin.
  apply in_map_iff in Hin as (r & <- & Hr). now apply filter_In in Hr.
Qed.

(** ** The sum a flush reports *)

(** C1, refuted.  The balance of a wallet counted in gwei goes from 0 to
    0.00001 and then to 100000000000.00001.  The buffer then holds the amounts
    0.00001 and 100000000000.00000, whose sum is 100000000000.00001; the
    binary64 sum of the two is 100000000000.0000153 and the flush reports
    100000000000.00002. *)
Lemma flush_large_amounts :
  messages (wallet_base Large.after_two_cycles) = buffered Large.deltas
  /\ ~ reports_exact_sum Large.deltas Large.after_two_cycles.
Proof.
  split; [vm_compute; reflexivity|].
  intros (total & Ht & Ho & _).
  vm_compute in Ht. injection Ht as <-.
  vm_compute in Ho. discriminate Ho.
Qed.

Lemma flush_large_amounts_trace :
  map message (messages (wallet_base Large.after_two_cycles))
    = ["0.00001"; "100000000000.00000"]
  /\ exact_sum (map snd Large.deltas) = Some 10000000000000001
  /\ fixed5 10000000000000001 = "100000000000.00001"
  /\ out (flush Large.after_two_cycles)
     = Returned (Some (report Large.after_two_cycles
                         "You just received 100000000000.00002 GWEI.")).
Proof.
  repeat split; vm_compute; reflexivity.
Qed.

(** C1, amended.  For every non-empty sequence of receipts recorded since the
    buffer was last empty, the flush returns the summary of the binary64 sum,
    taken in recording order from 0.0, of the recorded amounts, each being the
    delta rounded to five decimals and each counted once; it prints that sum
    with five decimals, calls no network and leaves the buffer empty. *)
Theorem flush_reports_float_sum :
  forall (w : Wallet) (rs : list (float * (float * float))),
    messages (wallet_base w) = [] ->
    receipts rs <> [] ->
    let w' := record_all rs w in
    let total := float_sum (map (fun td => rounded5 (snd td)) (receipts rs)) in
    out (flush w')
      = Returned (Some (report w' (summary_text total (primary_asset (wallet_base w')))))
    /\ messages (wallet_base (final (flush w'))) = []
    /\ calls (flush w') = [].
Proof.
  intros w rs Hw Hr w' total.
  assert (Hm : messages (wallet_base w') = buffered (receipts rs)).
  { unfold w'. now rewrite record_all_messages, Hw. }
  pose proof (receipts_positive rs) as Hp.
  destruct (receipts rs) as [|td tds] eqn:E; [contradiction|].
  rewrite (flush_buffered w' td tds Hp Hm). simpl out. simpl calls. simpl final.
  repeat split. destruct w' as [o|o|o]; reflexivity.
Qed.

Lemma flush_reports_float_sum_witness :
  out (flush (record_all [(1700000000%float, (12.5%float, 2.5%float));
                          (1700000001%float, (12.5%float, 0%float));
                          (1700000002%float, (12.75%float, 0.25%float))]
                         Demo.ethereum_reader))
    = Returned (Some (report Demo.ethereum_reader "You just received 2.75000 ETH.")).
Proof.
  apply (flush_reports_float_sum Demo.ethereum_reader
           [(1700000000%float, (12.5%float, 2.5%float));
            (1700000001%float, (12.5%float, 0%float));
            (1700000002%float, (12.75%float, 0.25%float))]).
  - reflexivity.
  - vm_compute. discriminate.
Defined.

(** ** Flushing twice *)

(** C8.  On every buffer that recording can produce, a second flush with no
    record in between returns nothing and changes nothing; and a flush of the
    empty buffer returns nothing and changes nothing. *)
Theorem flush_twice :
  forall w : Wallet,
    recorded w ->
    out (flush (final (flush w))) = Returned None
    /\ final (flush (final (flush w))) = final (flush w)
    /\ (messages (wallet_base w) = []
        -> out (flush w) = Returned None /\ final (flush w) = w).
Proof.
  intros w (tds & Hp & Hm).
  assert (He : messages (wallet_base (final (flush w))) = []).
  { destruct tds as [|td tds].
    - now rewrite (flush_empty w Hm).
    - rewrite (flush_buffered w td tds Hp Hm). destruct w as [o|o|o]; reflexivity. }
  rewrite (flush_empty _ He). split; [reflexivity|]. split; [reflexivity|].
  intros H. now rewrite (flush_empty w H).
Qed.

Lemma flush_twice_witness :
  out (flush (final (flush (record_all [(1700000000%float, (12.5%float, 2.5%float))]
                                       Demo.ethereum_reader))))
    = Returned None.
Proof.
  apply (flush_twice (record_all [(1700000000%float, (12.5%float, 2.5%float))]
                                 Demo.ethereum_reader)).
  exists [(1700000000%float, 2.5%float)]. split.
  - repeat constructor.
  - reflexivity.
Defined.

(** ** The sampler *)

Lemma fetch_balance_base W asset w :
  wallet_base (final (fetch_balance W asset w)) = wallet_base w.
Proof.
  destruct w as [o|o|o]; destruct o as [b f]; run; answers; reflexivity.
Qed.

(** One cycle of [_poll] around any [fetch_balance] that returns [s]: both
    balances become [s] and the change is measured against the balance the
    fetch left as previous. *)
Lemma _poll_returns F (fetch : string -> M (Obj F) float) (self : Obj F) s :
  out (fetch (primary_asset (base self)) self) = Returned s ->
  let after := final (fetch (primary_asset (base self)) self) in
  let r := _poll fetch self in
  out r = Returned (s, (s - balance_previous (base after))%float)
  /\ balance (base (final r)) = s
  /\ balance_previous (base (final r)) = s
  /\ messages (base (final r)) = messages (base after).
Proof.
  intros H. unfold _poll, bind, get, modify, ret. simpl.
  destruct (fetch (primary_asset (base self)) self) as [after o c].
  simpl in H. subst o. simpl. repeat split.
Qed.

Lemma _poll_raises F (fetch : string -> M (Obj F) float) (self : Obj F) e :
  out (fetch (primary_asset (base self)) self) = Raised e ->
  out (_poll fetch self) = Raised e
  /\ final (_poll fetch self) = final (fetch (primary_asset (base self)) self).
Proof.
  intros H. unfold _poll, bind, get. simpl.
  destruct (fetch (primary_asset (base self)) self) as [after o c].
  simpl in H. subst o. split; reflexivity.
Qed.

Lemma poll_returns W w s :
  sample W w = Returned s ->
  out (poll W w) = Returned (s, (s - balance_previous (wallet_base w))%float)
  /\ balance (wallet_base (final (poll W w))) = s
  /\ balance_previous (wallet_base (final (poll W w))) = s
  /\ messages (wallet_base (final (poll W w))) = messages (wallet_base w).
Proof.
  unfold sample. intros H.
  pose proof (fetch_balance_base W (primary_asset (wallet_base w)) w) as Hb.
  destruct w as [o|o|o]; unfold poll, fetch_balance, dispatch in *;
    cbn [out final wallet_base] in *.
  - destruct (_poll_returns _ (WalletEthereum.fetch_balance W) o s H) as (A & B & C & D).
    split; [exact (eq_trans A (f_equal (fun b => Returned (s, (s - balance_previous b)%float)) Hb))|].
    split; [exact B|]. split; [exact C|]. exact (eq_trans D (f_equal messages Hb)).
  - destruct (_poll_returns _ (WalletSolana.fetch_balance W) o s H) as (A & B & C & D).
    split; [exact (eq_trans A (f_equal (fun b => Returned (s, (s - balance_previous b)%float)) Hb))|].
    split; [exact B|]. split; [exact C|]. exact (eq_trans D (f_equal messages Hb)).
  - destruct (_poll_returns _ (WalletCoinbase.fetch_balance W) o s H) as (A & B & C & D).
    split; [exact (eq_trans A (f_equal (fun b => Returned (s, (s - balance_previous b)%float)) Hb))|].
    split; [exact B|]. split; [exact C|]. exact (eq_trans D (f_equal messages Hb)).
Qed.

Lemma record_balances now raw_input w :
  balance (wallet_base (final (record now raw_input w))) = balance (wallet_base w)
  /\ balance_previous (wallet_base (final (record now raw_input w)))
     = balance_previous (wallet_base w).
Proof.
  destruct w as [o|o|o]; destruct o as [b f]; run; unfold _raw_to_text;
    destruct (0 <? snd raw_input)%float; split; reflexivity.
Qed.

Lemma cycles_app Ws Ws' w : cycles (Ws ++ Ws') w = cycles Ws' (cycles Ws w).
Proof.
  revert w. induction Ws as [|[W now] Ws IH]; intros w; simpl; [reflexivity|apply IH].
Qed.

(** C5.  Whatever cycles a wallet has been through, the cycle that comes next
    and fetches the value [s] leaves [balance_previous] (and [balance]) equal
    to [s], with no condition on the sign of the change; the change it emits
    is [s] minus the previous value. *)
Theorem previous_is_last_sample :
  forall (Ws : list (World * float)) (W : World) (now : float) (w : Wallet) (s : float),
    sample W (cycles Ws w) = Returned s ->
    balance_previous (wallet_base (cycles (Ws ++ [(W, now)]) w)) = s
    /\ balance (wallet_base (cycles (Ws ++ [(W, now)]) w)) = s
    /\ out (poll W (cycles Ws w))
       = Returned (s, (s - balance_previous (wallet_base (cycles Ws w)))%float).
Proof.
  intros Ws W now w s H. rewrite cycles_app. simpl. unfold cycle.
  destruct (poll_returns W (cycles Ws w) s H) as (A & B & C & _).
  rewrite A. destruct (record_balances now (s, (s - balance_previous (wallet_base (cycles Ws w)))%float) (final (poll W (cycles Ws w)))) as [Hb Hp].
  rewrite Hb, Hp, B, C. repeat split.
Qed.

Lemma previous_is_last_sample_witness :
  balance_previous
    (wallet_base (cycles ([(Large.reporting 12.5%float, 1700000000%float)]
                            ++ [(Large.reporting 11%float, 1700000001%float)])
                         Demo.coinbase_wallet))
    = 11%float.
Proof.
  apply (previous_is_last_sample [(Large.reporting 12.5%float, 1700000000%float)]
           (Large.reporting 11%float) 1700000001%float Demo.coinbase_wallet 11%float).
  reflexivity.
Defined.

(** ** The scenario of five cycles *)

(** C6.  From a previous balance of 10.0 on asset "eth", the balances 10.0,
    10.0, 12.5, 12.5, 11.0 of five cycles give the changes 0 (against the
    initial previous balance), 0, 2.5, 0 and -1.5; the flush after cycle 3
    reports "You just received 2.50000 ETH."; cycles 4 and 5 add no event, so
    that the buffer is empty after cycle 5 and the next flush returns nothing.
    Counted from the read of the constructor, which sets the previous balance
    to 10.0 and computes no change, the four cycles that follow give the
    changes 0, 2.5, 0 and -1.5, and the same flushes. *)
Theorem five_cycle_scenario :
  observe Scenario.five_cycles Scenario.start
    = [Returned (10, 0); Returned (10, 0); Returned (12.5, 2.5);
       Returned (12.5, 0); Returned (11, -1.5)]%float
  /\ out (flush Scenario.after_cycle_3)
     = Returned (Some (report Scenario.start "You just received 2.50000 ETH."))
  /\ map input_text (io_provider (wallet_base Scenario.after_flush))
     = ["You just received 2.50000 ETH."]
  /\ messages (wallet_base Scenario.after_cycle_5) = []
  /\ out (flush Scenario.after_cycle_5) = Returned None
  /\ messages (wallet_base (cycles Scenario.five_cycles Scenario.start))
     = [mkMessage 1700000003 "2.50000"]
  /\ out (construct VEthereum (Scenario.node 10000000000000000000) Demo.default_config)
     = Returned Scenario.start
  /\ observe (tl Scenario.five_cycles) Scenario.start
     = [Returned (10, 0); Returned (12.5, 2.5); Returned (12.5, 0);
        Returned (11, -1.5)]%float
  /\ out (flush (cycles (firstn 2 (tl Scenario.five_cycles)) Scenario.start))
     = Returned (Some (report Scenario.start "You just received 2.50000 ETH."))
  /\ out (flush (cycles (skipn 2 (tl Scenario.five_cycles))
                        (final (flush (cycles (firstn 2 (tl Scenario.five_cycles))
                                              Scenario.start)))))
     = Returned None.
Proof.
  repeat split; vm_compute; reflexivity.
Qed.

(** ** Deltas below half a unit of the fifth decimal *)

Lemma digits2_pos_bound m : Z.pos m < 2 ^ Z.pos (digits2_pos m).
Proof.
  induction m as [p IH|p IH|]; simpl digits2_pos.
  - rewrite Pos2Z.inj_succ, Z.pow_succ_r by lia. lia.
  - rewrite Pos2Z.inj_succ, Z.pow_succ_r by lia. lia.
  - reflexivity.
Qed.

Lemma valid_mantissa_bound m e s :
  valid_binary (S754_finite s m e) = true -> Z.pos m < 2 ^ 53.
Proof.
  intros H. change (bounded prec emax m e = true) in H.
  unfold bounded, canonical_mantissa, fexp, SpecFloat.emin, prec, emax in H.
  apply andb_true_iff in H as [H _]. apply Z.eqb_eq in H.
  pose proof (digits2_pos_bound m) as Hm.
  assert (Z.pos (digits2_pos m) <= 53) by lia.
  eapply Z.lt_le_trans; [exact Hm|]. apply Z.pow_le_mono_r; lia.
Qed.

Lemma div_half_even_small num den :
  0 <= num -> 2 * num < den -> div_half_even num den = 0.
Proof.
  intros Hn Hd. unfold div_half_even.
  rewrite Z.div_small, Z.mod_small by lia.
  destruct (2 * num <? den) eqn:E; [reflexivity|]. apply Z.ltb_ge in E. lia.
Qed.

Lemma scaled5_tiny m e :
  Z.pos m < 2 ^ 53 ->
  e < -70 \/ (e = -70 /\ Z.pos m < 5902958103587057) ->
  scaled5 m e = 0.
Proof.
  intros Hm He. unfold scaled5.
  replace (0 <=? e) with false by (symmetry; apply Z.leb_gt; lia).
  apply div_half_even_small; [lia|].
  destruct He as [He | [-> Hlt]].
  - assert (2 ^ 71 <= 2 ^ (- e)) by (apply Z.pow_le_mono_r; lia).
    change (2 ^ 53) with 9007199254740992 in Hm.
    change (2 ^ 71) with 2361183241434822606848 in H. lia.
  - change (2 ^ (- -70)) with 1180591620717411303424. lia.
Qed.

Lemma compare_cont_lt m q : Pos.compare_cont Eq m q = Lt -> Z.pos m < Z.pos q.
Proof. intros C. apply Pos2Z.pos_lt_pos. exact C. Qed.

(** A positive delta below [0.000005] prints as zero. *)
Lemma format_5f_tiny d :
  positive d = true -> (d <? half_unit)%float = true -> format_5f d = "0.00000".
Proof.
  intros Hp Hlt. pose proof (Prim2SF_valid d) as Hv.
  rewrite ltb_spec in Hlt.
  change (Prim2SF half_unit) with (S754_finite false 5902958103587057 (-70)) in Hlt.
  unfold format_5f.
  destruct (positive_cases d Hp) as [(m & e & E) | E]; rewrite E in *;
    [|discriminate Hlt].
  apply valid_mantissa_bound in Hv.
  rewrite (scaled5_tiny m e Hv); [reflexivity|].
  unfold SFltb, SFcompare in Hlt.
  destruct (Z.compare_spec e (-70)) as [Heq | Hlt' | Hgt]; try discriminate Hlt.
  - right. split; [exact Heq|].
    destruct (Pos.compare_cont Eq m 5902958103587057) eqn:C; try discriminate Hlt.
    exact (compare_cont_lt m _ C).
  - now left.
Qed.

Lemma record_base now raw_input w :
  class_name (wallet_base (final (record now raw_input w))) = class_name (wallet_base w)
  /\ primary_asset (wallet_base (final (record now raw_input w)))
     = primary_asset (wallet_base w).
Proof.
  destruct w as [o|o|o]; destruct o as [b f]; run; unfold _raw_to_text;
    destruct (0 <? snd raw_input)%float; split; reflexivity.
Qed.

(** C10.  The amount of a receipt is the text of the delta with five
    decimals, and the flush sums what these texts read back as.  So a positive
    delta below 0.000005 is still recorded, as the amount 0.00000; flushed
    from an otherwise empty buffer it is reported as
    "You just received 0.00000 ...". *)
Theorem tiny_delta_reported_as_zero :
  forall (w : Wallet) (now bal d : float),
    positive d = true ->
    (d <? half_unit)%float = true ->
    let w' := final (record now (bal, d) w) in
    messages (wallet_base w')
      = (messages (wallet_base w) ++ [mkMessage now (format_5f d)])%list
    /\ format_5f d = "0.00000"
    /\ rounded5 d = 0%float
    /\ (messages (wallet_base w) = [] ->
        out (flush w')
          = Returned (Some (report w (summary_line "0.00000"
                                                   (primary_asset (wallet_base w)))))).
Proof.
  intros w now bal d Hp Hlt w'.
  pose proof (record_messages now (bal, d) w) as Hm. simpl snd in Hm.
  rewrite Hp in Hm. fold w' in Hm.
  pose proof (format_5f_tiny d Hp Hlt) as Hf.
  assert (Hr : rounded5 d = 0%float).
  { pose proof (float_of_string_format d Hp) as H. rewrite Hf in H.
    change (float_of_string "0.00000") with (Some 0%float) in H. now injection H. }
  split; [exact Hm|]. split; [exact Hf|]. split; [exact Hr|].
  intros He. rewrite He in Hm. simpl app in Hm.
  assert (Hb : messages (wallet_base w') = buffered [(now, d)]) by exact Hm.
  assert (Hall : Forall (fun td : float * float => positive (snd td) = true) [(now, d)])
    by (constructor; [exact Hp | constructor]).
  rewrite (flush_buffered w' (now, d) [] Hall Hb).
  simpl out. simpl map. rewrite Hr.
  destruct (record_base now (bal, d) w) as [Hc Ha]. fold w' in Hc, Ha.
  unfold report. rewrite Hc, Ha. reflexivity.
Qed.

Lemma tiny_delta_reported_as_zero_witness :
  out (flush (final (record 1700000000%float (10%float, 0x1p-18%float)
                            Demo.ethereum_reader)))
    = Returned (Some (report Demo.ethereum_reader "You just received 0.00000 ETH.")).
Proof.
  apply (tiny_delta_reported_as_zero Demo.ethereum_reader 1700000000%float 10%float
           0x1p-18%float).
  - reflexivity.
  - reflexivity.
  - reflexivity.
Defined.

(** * Further properties *)

(** ** What a transfer returns *)

Lemma ethereum_transfer_shape W to_address amount asset o :
  let w := Ethereum o in
  exists d, out (transfer W to_address amount asset w) = Returned d
            /\ (is_failed_transfer to_address amount asset d
                \/ is_sent_transfer to_address amount asset w d).
Proof.
  destruct o as [b f]; run; answers; eexists; (split; [reflexivity|]);
    try (left; eexists; reflexivity); right; eexists; eexists; reflexivity.
Qed.

Lemma solana_transfer_shape W to_address amount asset o :
  let w := Solana o in
  exists d, out (transfer W to_address amount asset w) = Returned d
            /\ (is_failed_transfer to_address amount asset d
                \/ is_sent_transfer to_address amount asset w d).
Proof.
  destruct o as [b f]; run; answers; eexists; (split; [reflexivity|]);
    try (left; eexists; reflexivity); right; eexists; eexists; reflexivity.
Qed.

Lemma coinbase_transfer_shape W to_address amount asset o :
  let w := Coinbase o in
  exists d, out (transfer W to_address amount asset w) = Returned d
            /\ (is_failed_transfer to_address amount asset d
                \/ is_sent_transfer to_address amount asset w d).
Proof.
  destruct o as [b f]; run; answers; eexists; (split; [reflexivity|]);
    try (left; eexists; reflexivity); right; eexists; eexists; reflexivity.
Qed.

(** X1.  [transfer] never raises, whatever the world answers.  It returns a
    dictionary that repeats the amount, the asset and the recipient, and is of
    one of two kinds: failed, with no transaction hash, an [error] text and no
    [from_address]; or pending (Ethereum, Solana) or completed (Coinbase),
    with a transaction hash and a [from_address] and no [error]. *)
Theorem transfer_always_returns :
  forall (W : World) (to_address asset : string) (amount : float) (w : Wallet),
  exists d,
    out (transfer W to_address amount asset w) = Returned d
    /\ dict_get "amount" d = Some (PFloat amount)
    /\ dict_get "asset" d = Some (PStr asset)
    /\ dict_get "to_address" d = Some (PStr to_address)
    /\ ((dict_get "status" d = Some (PStr "failed")
         /\ dict_get "transaction_hash" d = Some PNone
         /\ has_key "error" d = true /\ has_key "from_address" d = false)
        \/ (dict_get "status" d
              = Some (PStr (match w with Coinbase _ => "completed" | _ => "pending" end))
            /\ (exists tx, dict_get "transaction_hash" d = Some (PStr tx))
            /\ has_key "error" d = false /\ has_key "from_address" d = true)).
Proof.
  intros W to_address asset amount w.
  assert (H : exists d, out (transfer W to_address amount asset w) = Returned d
                        /\ (is_failed_transfer to_address amount asset d
                            \/ is_sent_transfer to_address amount asset w d)).
  { destruct w as [o|o|o];
      [apply ethereum_transfer_shape | apply solana_transfer_shape
       | apply coinbase_transfer_shape]. }
  destruct H as (d & Hd & [[error E] | (tx & from & E)]); exists d;
    (split; [exact Hd|]); rewrite E; clear.
  - split; [reflexivity|]. split; [reflexivity|]. split; [reflexivity|].
    left. repeat split; reflexivity.
  - split; [reflexivity|]. split; [reflexivity|]. split; [reflexivity|].
    right. split; [destruct w; reflexivity|].
    split; [eexists; reflexivity|]. split; reflexivity.
Qed.

Lemma ethereum_sent_submitted W to_address amount asset o d :
  let w := Ethereum o in
  let r := transfer W to_address amount asset w in
  out r = Returned d ->
  dict_get "status" d <> Some (PStr "failed") ->
  exists c tx, In c (calls r)
               /\ submission W to_address amount asset w c = Some (Returned tx)
               /\ dict_get "transaction_hash" d = Some (PStr tx).
Proof.
  destruct o as [b f]; run; answers; simpl; intros Hd Hs; injection Hd as <-;
    try (exfalso; apply Hs; reflexivity).
  match goal with
  | H : w3_send_raw_transaction _ ?raw = Returned ?tx |- _ =>
      exists (W3SendRawTransaction raw), tx; split; [simpl; tauto|];
      split; [simpl; now rewrite H | reflexivity]
  end.
Qed.

Lemma solana_sent_submitted W to_address amount asset o d :
  let w := Solana o in
  let r := transfer W to_address amount asset w in
  out r = Returned d ->
  dict_get "status" d <> Some (PStr "failed") ->
  exists c tx, In c (calls r)
               /\ submission W to_address amount asset w c = Some (Returned tx)
               /\ dict_get "transaction_hash" d = Some (PStr tx).
Proof.
  destruct o as [b f]; run; answers; simpl; intros Hd Hs; injection Hd as <-;
    try (exfalso; apply Hs; reflexivity).
  match goal with
  | H : sol_send_transaction _ ?raw = Returned ?tx |- _ =>
      exists (SolSendTransaction raw), tx; split; [simpl; tauto|];
      split; [simpl; now rewrite H | reflexivity]
  end.
Qed.

Lemma coinbase_sent_submitted W to_address amount asset o d :
  let w := Coinbase o in
  let r := transfer W to_address amount asset w in
  out r = Returned d ->
  dict_get "status" d <> Some (PStr "failed") ->
  exists c tx, In c (calls r)
               /\ submission W to_address amount asset w c = Some (Returned tx)
               /\ dict_get "transaction_hash" d = Some (PStr tx).
Proof.
  destruct o as [b f]; run; answers; simpl; intros Hd Hs; injection Hd as <-;
    try (exfalso; apply Hs; reflexivity).
  match goal with
  | H : cdp_transfer _ _ _ _ = Returned ?tx |- _ =>
      exists (CdpTransfer to_address amount asset), tx; split; [simpl; tauto|];
      split; [simpl; now rewrite H | reflexivity]
  end.
Qed.

(** X2.  A transfer whose result is not failed was handed to the service:
    among the network calls of the transfer is the submission (the raw
    transaction sent, for Ethereum and Solana; the transfer call of the SDK,
    for Coinbase), the service answered it, and the transaction hash of the
    result is that answer. *)
Theorem sent_transfer_was_submitted :
  forall (W : World) (to_address asset : string) (amount : float) (w : Wallet) (d : Dict),
    let r := transfer W to_address amount asset w in
    out r = Returned d ->
    dict_get "status" d <> Some (PStr "failed") ->
    exists c tx, In c (calls r)
                 /\ submission W to_address amount asset w c = Some (Returned tx)
                 /\ dict_get "transaction_hash" d = Some (PStr tx).
Proof.
  intros W to_address asset amount [o|o|o] d.
  - apply ethereum_sent_submitted.
  - apply solana_sent_submitted.
  - apply coinbase_sent_submitted.
Qed.

Lemma sent_transfer_was_submitted_witness :
  exists c tx,
    In c (calls (transfer (Demo.online Demo.env_with_keys) null_address 1 "eth"
                          Demo.ethereum_signer))
    /\ submission (Demo.online Demo.env_with_keys) null_address 1 "eth"
                  Demo.ethereum_signer c = Some (Returned tx)
    /\ dict_get "transaction_hash"
         (sent_transfer "0x5c504ed432cb51138bcf09aa5e8a410dd4a1e204" "pending" 1 "eth"
                        null_address "0x71C7656EC7ab88b098defB751B7401B5f6d8976F")
       = Some (PStr tx).
Proof.
  apply (sent_transfer_was_submitted (Demo.online Demo.env_with_keys) null_address "eth" 1
           Demo.ethereum_signer).
  - vm_compute. reflexivity.
  - vm_compute. discriminate.
Defined.

(** ** What a signature request returns *)

(** Whether [get_wallet_address] returns: always for the Ethereum and the
    Solana wallet, and for the Coinbase wallet when the SDK wallet has a
    default address. *)
Lemma sign_message_shape W msg w address :
  get_wallet_address w = Returned address ->
  exists d, out (sign_message W msg w) = Returned d
            /\ ((exists address error, d = failed_signature msg address error)
                \/ (exists signature address, d = made_signature signature msg address)).
Proof.
  destruct w as [o|o|o]; destruct o as [b f]; simpl; intros Ha;
    [| |unfold WalletCoinbase.get_wallet_address in Ha; simpl in Ha;
        destruct (cdp_default_address (WalletCoinbase.wallet f)) eqn:Hd;
        [clear Ha | discriminate Ha]];
    run; try rewrite Hd; answers; eexists;
    (split; [reflexivity|]);
    try (left; eexists; eexists; reflexivity); right; eexists; eexists; reflexivity.
Qed.

Lemma coinbase_sign_message_escapes W msg o e :
  cdp_default_address (WalletCoinbase.wallet (ext o)) = None ->
  cdp_sign_payload (cdp W) msg = Raised e ->
  out (sign_message W msg (Coinbase o))
    = Raised (mkExn "AttributeError" "'NoneType' object has no attribute 'address_id'")
  /\ final (sign_message W msg (Coinbase o)) = Coinbase o.
Proof.
  destruct o as [b f]. simpl. intros Ha He. run. rewrite He. run. rewrite Ha.
  split; reflexivity.
Qed.

(** X3.  [sign_message] returns a result whenever the wallet address can be
    read, which is always so for the Ethereum and the Solana wallet and, for
    the Coinbase wallet, when the SDK wallet has a default address: the
    dictionary repeats the message, carries an address, and is either failed,
    with no signature and an [error] text, or a success with a signature and
    no [error].  The Coinbase wallet is the exception: its handler reads the
    address outside the [try], so that when the SDK wallet has no default
    address and signing raises, [sign_message] raises AttributeError. *)
Theorem sign_message_always_returns :
  forall (W : World) (msg : string) (w : Wallet),
    (forall address : string,
        get_wallet_address w = Returned address ->
        exists d,
          out (sign_message W msg w) = Returned d
          /\ dict_get "message" d = Some (PStr msg)
          /\ has_key "address" d = true
          /\ ((dict_get "status" d = Some (PStr "failed")
               /\ dict_get "signature" d = Some PNone /\ has_key "error" d = true)
              \/ (dict_get "status" d = Some (PStr "success")
                  /\ (exists signature, dict_get "signature" d = Some (PStr signature))
                  /\ has_key "error" d = false)))
    /\ (variant_of w <> VCoinbase -> exists address, get_wallet_address w = Returned address)
    /\ (forall e e',
          get_wallet_address w = Raised e ->
          match w with
          | Coinbase _ => cdp_sign_payload (cdp W) msg = Raised e'
          | _ => False
          end ->
          out (sign_message W msg w) = Raised e).
Proof.
  intros W msg w. split; [|split].
  - intros address Ha.
    destruct (sign_message_shape W msg w address Ha)
      as (d & Hd & [(address' & error & E) | (signature & address' & E)]);
      exists d; (split; [exact Hd|]); rewrite E; clear.
    + split; [reflexivity|]. split; [reflexivity|]. left. repeat split; reflexivity.
    + split; [reflexivity|]. split; [reflexivity|]. right.
      split; [reflexivity|]. split; [eexists; reflexivity | reflexivity].
  - intros Hv. destruct w as [o|o|o]; [eexists; reflexivity | eexists; reflexivity|].
    exfalso. apply Hv. reflexivity.
  - intros e e' Ha He. destruct w as [o|o|o]; try contradiction.
    simpl in Ha. unfold WalletCoinbase.get_wallet_address in Ha.
    destruct (cdp_default_address (WalletCoinbase.wallet (ext o))) eqn:Hd;
      [discriminate Ha|]. injection Ha as <-.
    now destruct (coinbase_sign_message_escapes W msg o e' Hd He).
Qed.

Lemma sign_message_always_returns_witness :
  (exists d,
      out (sign_message (Demo.offline Demo.env_without_keys) "Test message"
                        Demo.coinbase_wallet) = Returned d
      /\ dict_get "message" d = Some (PStr "Test message")
      /\ has_key "address" d = true
      /\ ((dict_get "status" d = Some (PStr "failed")
           /\ dict_get "signature" d = Some PNone /\ has_key "error" d = true)
          \/ (dict_get "status" d = Some (PStr "success")
              /\ (exists signature, dict_get "signature" d = Some (PStr signature))
              /\ has_key "error" d = false)))
  /\ out (sign_message (Demo.offline Demo.env_without_keys) "Test message"
            (Coinbase (mkObj (Demo.base_at "WalletCoinbase" "eth" 10)
                             (WalletCoinbase.mkFields (Some "wallet-1")
                                (mkCdpWallet "wallet-1" None)))))
     = Raised (mkExn "AttributeError" "'NoneType' object has no attribute 'address_id'").
Proof.
  split.
  - apply (proj1 (sign_message_always_returns (Demo.offline Demo.env_without_keys)
                    "Test message" Demo.coinbase_wallet)
             "0x4838B106FCe9647Bdf1E7877BF73cE8B0BAD5f97").
    reflexivity.
  - apply (proj2 (proj2 (sign_message_always_returns
                           (Demo.offline Demo.env_without_keys) "Test message"
                           (Coinbase (mkObj (Demo.base_at "WalletCoinbase" "eth" 10)
                                            (WalletCoinbase.mkFields (Some "wallet-1")
                                               (mkCdpWallet "wallet-1" None))))))
             (mkExn "AttributeError" "'NoneType' object has no attribute 'address_id'")
             (mkExn "ConnectionError" "connection refused")).
    + reflexivity.
    + reflexivity.
Defined.

(** X4.  A wallet in read-only mode (an Ethereum or Solana wallet without
    account or key pair) refuses to sign: the result is failed, carries the
    configured wallet address and the read-only error, and no network call is
    made. *)
Theorem sign_message_read_only :
  forall (W : World) (msg : string) (w : Wallet),
    read_only w = true ->
    exists address,
      get_wallet_address w = Returned address
      /\ sign_message W msg w
         = mkRes w (Returned (failed_signature msg address read_only_error)) [].
Proof.
  intros W msg w H.
  destruct w as [o|o|o]; destruct o as [b f]; destruct f; simpl in H.
  - destruct account; [discriminate|]. eexists. split; reflexivity.
  - destruct keypair; [discriminate|]. eexists. split; reflexivity.
  - discriminate.
Qed.

Lemma sign_message_read_only_witness :
  exists address,
    get_wallet_address Demo.solana_reader = Returned address
    /\ sign_message (Demo.online Demo.env_without_keys) "Test message" Demo.solana_reader
       = mkRes Demo.solana_reader
               (Returned (failed_signature "Test message" address read_only_error))
               [].
Proof.
  apply (sign_message_read_only (Demo.online Demo.env_without_keys) "Test message"
           Demo.solana_reader).
  reflexivity.
Defined.

(** ** Cycles whose balance read fails *)

Lemma sub_self_not_positive x : positive (x - x)%float = false.
Proof.
  unfold positive. rewrite ltb_spec, sub_spec.
  change (Prim2SF 0) with (S754_zero false).
  destruct (Prim2SF x) as [s|s| |s m e].
  - destruct s; reflexivity.
  - destruct s; reflexivity.
  - reflexivity.
  - unfold SF64sub, SFsub. rewrite Z.sub_diag. reflexivity.
Qed.

Lemma stale_read W asset w :
  read_fails W w = true ->
  fetch_balance W asset w = mkRes w (Returned (balance (wallet_base w)))
                                  (calls (fetch_balance W asset w)).
Proof.
  destruct w as [o|o|o]; destruct o as [b f]; simpl; intros H; run.
  - destruct (w3_block_number (web3 W)); run; [|reflexivity].
    destruct (w3_get_balance (web3 W) _); run; [discriminate H | reflexivity].
  - destruct (sol_get_balance (solana W) _) as [[v|]|]; run;
      [discriminate H | reflexivity | reflexivity].
  - discriminate H.
Qed.

Lemma poll_raises W w e :
  sample W w = Raised e ->
  out (poll W w) = Raised e /\ wallet_base (final (poll W w)) = wallet_base w.
Proof.
  unfold sample. intros H.
  pose proof (fetch_balance_base W (primary_asset (wallet_base w)) w) as Hb.
  destruct w as [o|o|o]; unfold poll, fetch_balance, dispatch in *;
    cbn [out final wallet_base] in *.
  - destruct (_poll_raises _ (WalletEthereum.fetch_balance W) o e H) as [A B].
    split; [exact A|]. exact (eq_trans (f_equal base B) Hb).
  - destruct (_poll_raises _ (WalletSolana.fetch_balance W) o e H) as [A B].
    split; [exact A|]. exact (eq_trans (f_equal base B) Hb).
  - destruct (_poll_raises _ (WalletCoinbase.fetch_balance W) o e H) as [A B].
    split; [exact A|]. exact (eq_trans (f_equal base B) Hb).
Qed.

Lemma _poll_stale F (fetch : string -> M (Obj F) float) (self : Obj F) c :
  balance (base self) = balance_previous (base self) ->
  fetch (primary_asset (base self)) self
    = mkRes self (Returned (balance (base self))) c ->
  final (_poll fetch self) = self
  /\ out (_poll fetch self)
     = Returned (balance (base self), (balance (base self) - balance (base self))%float).
Proof.
  intros Ht Hs. unfold _poll, bind, get, modify, ret. simpl. rewrite Hs. simpl.
  destruct self as [b f]. destruct b as [cn ms pi pa bal prev io].
  simpl in Ht. subst prev. split; reflexivity.
Qed.

Lemma record_idle now raw_input w :
  positive (snd raw_input) = false -> final (record now raw_input w) = w.
Proof.
  unfold positive. intros H.
  destruct w as [o|o|o]; destruct o as [b f]; run; unfold _raw_to_text;
    rewrite H; reflexivity.
Qed.

(** X5.  When the balance read of an Ethereum or Solana wallet fails (the
    node raises, or Solana answers with no value), the cycle changes nothing:
    the wallet, whose two balances agreed, is the same after the cycle, and no
    receipt is recorded. *)
Theorem failed_read_cycle_is_idle :
  forall (W : World) (now : float) (w : Wallet),
    tracked w ->
    read_fails W w = true ->
    cycle W now w = w
    /\ out (poll W w)
       = Returned (balance (wallet_base w),
                   (balance (wallet_base w) - balance (wallet_base w))%float).
Proof.
  intros W now w Ht Hf.
  pose proof (stale_read W (primary_asset (wallet_base w)) w Hf) as Hs.
  assert (H : final (poll W w) = w
              /\ out (poll W w)
                 = Returned (balance (wallet_base w),
                             (balance (wallet_base w) - balance (wallet_base w))%float)).
  { unfold tracked in Ht.
    destruct w as [o|o|o]; unfold poll, fetch_balance, dispatch in *;
      cbn [wallet_base final out calls] in *; [| |discriminate Hf].
    - destruct (WalletEthereum.fetch_balance W (primary_asset (base o)) o)
        as [fo fr fc] eqn:E. cbn [final out calls] in Hs.
      injection Hs as Hw Hr. subst fo fr.
      destruct (_poll_stale _ (WalletEthereum.fetch_balance W) o fc Ht E) as [A B].
      split; [exact (f_equal Ethereum A) | exact B].
    - destruct (WalletSolana.fetch_balance W (primary_asset (base o)) o)
        as [fo fr fc] eqn:E. cbn [final out calls] in Hs.
      injection Hs as Hw Hr. subst fo fr.
      destruct (_poll_stale _ (WalletSolana.fetch_balance W) o fc Ht E) as [A B].
      split; [exact (f_equal Solana A) | exact B]. }
  destruct H as [A B]. split; [|exact B].
  unfold cycle. rewrite B, A. apply record_idle. apply sub_self_not_positive.
Qed.

Lemma failed_read_cycle_is_idle_witness :
  cycle (Demo.offline Demo.env_without_keys) 1700000000%float Demo.ethereum_reader
    = Demo.ethereum_reader.
Proof.
  apply (failed_read_cycle_is_idle (Demo.offline Demo.env_without_keys) 1700000000%float
           Demo.ethereum_reader).
  - reflexivity.
  - reflexivity.
Defined.

(** X6.  When [fetch_balance] raises (as that of the Coinbase wallet does when
    the service is down), [_poll] raises the same exception and the balances
    and the buffer are as before: the state only advances after a read that
    returned. *)
Theorem raising_read_leaves_state :
  forall (W : World) (now : float) (w : Wallet) (e : exn),
    sample W w = Raised e ->
    out (poll W w) = Raised e
    /\ wallet_base (final (poll W w)) = wallet_base w
    /\ wallet_base (cycle W now w) = wallet_base w.
Proof.
  intros W now w e H. destruct (poll_raises W w e H) as [A B].
  split; [exact A|]. split; [exact B|]. unfold cycle. rewrite A. exact B.
Qed.

Lemma raising_read_leaves_state_witness :
  out (poll (Demo.offline Demo.env_without_keys) Demo.coinbase_wallet)
    = Raised (mkExn "ConnectionError" "connection refused").
Proof.
  apply (raising_read_leaves_state (Demo.offline Demo.env_without_keys) 1700000000%float
           Demo.coinbase_wallet (mkExn "ConnectionError" "connection refused")).
  reflexivity.
Defined.

(** ** Wallets that can be reached *)

Lemma construct_initial v W config w :
  out (construct v W config) = Returned w ->
  variant_of w = v /\ messages (wallet_base w) = [] /\ tracked w
  /\ io_provider (wallet_base w) = [].
Proof.
  unfold tracked.
  destruct v; unfold construct; run; answers; simpl; intros H;
    try discriminate H; injection H as <-; repeat split.
Qed.

Lemma poll_keeps W w :
  tracked w ->
  tracked (final (poll W w))
  /\ messages (wallet_base (final (poll W w))) = messages (wallet_base w).
Proof.
  intros Ht. destruct (sample W w) as [s|e] eqn:E.
  - destruct (poll_returns W w s E) as (_ & B & C & D).
    unfold tracked. rewrite B, C. split; [reflexivity | exact D].
  - destruct (poll_raises W w e E) as [_ B]. unfold tracked. rewrite B.
    split; [exact Ht | reflexivity].
Qed.

Lemma record_keeps_recorded now raw_input w :
  recorded w -> recorded (final (record now raw_input w)).
Proof.
  intros (tds & Hp & Hm). unfold recorded. rewrite record_messages, Hm.
  destruct (positive (snd raw_input)) eqn:E.
  - exists (tds ++ [(now, snd raw_input)])%list. split.
    + apply Forall_app. split; [exact Hp|]. constructor; [exact E | constructor].
    + unfold buffered. now rewrite map_app.
  - exists tds. split; [exact Hp | now rewrite app_nil_r].
Qed.

Lemma flush_keeps w :
  recorded w ->
  messages (wallet_base (final (flush w))) = []
  /\ balance (wallet_base (final (flush w))) = balance (wallet_base w)
  /\ balance_previous (wallet_base (final (flush w))) = balance_previous (wallet_base w)
  /\ exists r, out (flush w) = Returned r /\ calls (flush w) = [].
Proof.
  intros (tds & Hp & Hm). destruct tds as [|td tds].
  - rewrite (flush_empty w Hm). repeat split; [exact Hm|]. eexists; split; reflexivity.
  - rewrite (flush_buffered w td tds Hp Hm).
    destruct w as [o|o|o]; repeat split; eexists; split; reflexivity.
Qed.

Lemma reachable_inv w : reachable w -> tracked w /\ recorded w.
Proof.
  induction 1 as [v W config w H | W w _ [Ht Hr] | now raw_input w _ [Ht Hr]
                  | w _ [Ht Hr] | W to_address amount asset w _ IH | W msg w _ IH].
  - destruct (construct_initial v W config w H) as (_ & Hm & Ht & _).
    split; [exact Ht|]. exists []. split; [constructor | exact Hm].
  - destruct (poll_keeps W w Ht) as [Ht' Hm]. split; [exact Ht'|].
    unfold recorded. rewrite Hm. exact Hr.
  - split; [|now apply record_keeps_recorded].
    unfold tracked. destruct (record_balances now raw_input w) as [-> ->]. exact Ht.
  - destruct (flush_keeps w Hr) as (Hm & Hb & Hp & _). split.
    + unfold tracked. rewrite Hb, Hp. exact Ht.
    + exists []. split; [constructor | exact Hm].
  - now rewrite transfer_final.
  - now rewrite sign_message_final.
Qed.

(** X7.  In every wallet that was constructed and then used through its
    methods, in any order and against any world, [balance] equals
    [balance_previous], and the buffer holds nothing but the five-decimal
    texts of positive deltas. *)
Theorem reachable_wallet_invariant :
  forall w : Wallet,
    reachable w ->
    balance (wallet_base w) = balance_previous (wallet_base w)
    /\ exists tds : list (float * float),
         Forall (fun td => (0 <? snd td)%float = true) tds
         /\ messages (wallet_base w)
            = map (fun td => mkMessage (fst td) (format_5f (snd td))) tds.
Proof.
  intros w H. exact (reachable_inv w H).
Qed.

Lemma reachable_wallet_invariant_witness :
  balance (wallet_base (final (poll (Demo.online Demo.no_environ) Demo.ethereum_reader)))
    = balance_previous
        (wallet_base (final (poll (Demo.online Demo.no_environ) Demo.ethereum_reader))).
Proof.
  apply (reachable_wallet_invariant
           (final (poll (Demo.online Demo.no_environ) Demo.ethereum_reader))).
  apply reach_poll.
  apply (reach_construct VEthereum (Demo.online Demo.no_environ) Demo.default_config).
  vm_compute. reflexivity.
Defined.

(** X8.  On a wallet that was constructed and then used through its methods,
    [formatted_latest_buffer] never raises: every buffered text converts back
    to a float.  The flush returns, calls no network, and leaves the buffer
    empty and the balances as they were. *)
Theorem flush_never_raises :
  forall w : Wallet,
    reachable w ->
    (exists r, out (flush w) = Returned r)
    /\ calls (flush w) = []
    /\ messages (wallet_base (final (flush w))) = []
    /\ balance (wallet_base (final (flush w))) = balance (wallet_base w)
    /\ balance_previous (wallet_base (final (flush w)))
       = balance_previous (wallet_base w).
Proof.
  intros w H. destruct (reachable_inv w H) as [_ Hr].
  destruct (flush_keeps w Hr) as (Hm & Hb & Hp & r & Ho & Hc).
  split; [now exists r|]. repeat split; assumption.
Qed.

Lemma flush_never_raises_witness :
  (exists r,
      out (flush (final (record 1700000000%float (12.5%float, 2.5%float)
                                (final (poll (Demo.online Demo.no_environ)
                                             Demo.ethereum_reader))))) = Returned r)
  /\ messages (wallet_base (final (record 1700000000%float (12.5%float, 2.5%float)
                                          (final (poll (Demo.online Demo.no_environ)
                                                       Demo.ethereum_reader)))))
     = [mkMessage 1700000000%float "2.50000"].
Proof.
  split; [|reflexivity].
  apply (flush_never_raises
           (final (record 1700000000%float (12.5%float, 2.5%float)
                          (final (poll (Demo.online Demo.no_environ)
                                       Demo.ethereum_reader))))).
  apply reach_record. apply reach_poll.
  apply (reach_construct VEthereum (Demo.online Demo.no_environ) Demo.default_config).
  vm_compute. reflexivity.
Defined.

(** ** What is recorded, and what a flush hands on *)

Lemma not_positive d :
  (d <=? 0)%float = true \/ is_nan d = true -> positive d = false.
Proof.
  unfold positive. rewrite ltb_spec, leb_spec.
  change (Prim2SF 0) with (S754_zero false).
  intros [H | H].
  - destruct (Prim2SF d) as [s|s| |s m e]; simpl in *; try reflexivity;
      destruct s; try reflexivity; discriminate H.
  - assert (E : Prim2SF d = S754_nan) by (unfold Prim2SF; now rewrite H).
    rewrite E. reflexivity.
Qed.

Lemma record_returns now raw_input w :
  out (record now raw_input w) = Returned tt /\ calls (record now raw_input w) = [].
Proof.
  destruct w as [o|o|o]; destruct o as [b f]; run; unfold _raw_to_text;
    destruct (0 <? snd raw_input)%float; split; reflexivity.
Qed.

(** X9.  [raw_to_text] records a receipt exactly for a positive change.  A
    change that is zero, negative or NaN leaves the wallet as it was; a
    positive one appends one message, stamped with the time of the call and
    holding the change with five decimals.  In both cases nothing is raised
    and no network call is made. *)
Theorem record_only_positive_changes :
  forall (now current change : float) (w : Wallet),
    let r := record now (current, change) w in
    out r = Returned tt /\ calls r = []
    /\ (((change <=? 0)%float = true \/ is_nan change = true) -> final r = w)
    /\ ((0 <? change)%float = true ->
        messages (wallet_base (final r))
          = (messages (wallet_base w) ++ [mkMessage now (format_5f change)])%list
        /\ balance (wallet_base (final r)) = balance (wallet_base w)
        /\ balance_previous (wallet_base (final r)) = balance_previous (wallet_base w)).
Proof.
  intros now current change w r. subst r.
  destruct (record_returns now (current, change) w) as [Ho Hc].
  split; [exact Ho|]. split; [exact Hc|]. split.
  - intros H. apply record_idle. now apply not_positive.
  - intros H. rewrite record_messages. simpl snd. unfold positive. rewrite H.
    split; [reflexivity|]. apply record_balances.
Qed.

Lemma record_only_positive_changes_witness :
  final (record 1700000000%float (11%float, (-1.5)%float) Demo.ethereum_reader)
    = Demo.ethereum_reader
  /\ messages (wallet_base (final (record 1700000000%float (12.5%float, 2.5%float)
                                          Demo.ethereum_reader)))
     = [mkMessage 1700000000%float "2.50000"].
Proof.
  split.
  - apply (record_only_positive_changes 1700000000%float 11%float (-1.5)%float
             Demo.ethereum_reader).
    left. reflexivity.
  - apply (record_only_positive_changes 1700000000%float 12.5%float 2.5%float
             Demo.ethereum_reader).
    reflexivity.
Defined.

Lemma record_all_recorded rs :
  forall w, recorded w -> recorded (record_all rs w).
Proof.
  induction rs as [|[now raw_input] rs IH]; intros w H; simpl; [exact H|].
  apply IH. now apply record_keeps_recorded.
Qed.

Lemma record_all_base rs :
  forall w,
    class_name (wallet_base (record_all rs w)) = class_name (wallet_base w)
    /\ primary_asset (wallet_base (record_all rs w)) = primary_asset (wallet_base w)
    /\ io_provider (wallet_base (record_all rs w)) = io_provider (wallet_base w).
Proof.
  induction rs as [|[now raw_input] rs IH]; intros w; simpl; [repeat split|].
  destruct (IH (final (record now raw_input w))) as (A & B & C).
  rewrite A, B, C. clear.
  destruct w as [o|o|o]; destruct o as [b f]; run; unfold _raw_to_text;
    destruct (0 <? snd raw_input)%float; repeat split.
Qed.

Lemma flushed_io total stamp w :
  io_provider (wallet_base (flushed total stamp w))
    = (io_provider (wallet_base w)
         ++ [mkIOInput (class_name (wallet_base w))
                       (summary_text total (primary_asset (wallet_base w))) stamp])%list.
Proof. destruct w as [o|o|o]; reflexivity. Qed.

(** X10.  A flush of a buffer filled since it was last empty hands exactly one
    input to the IOProvider: the class name, the summary line, and the time
    stamp of the last receipt recorded.  A flush of the empty buffer hands on
    nothing and returns nothing. *)
Theorem flush_hands_on_one_input :
  forall (w : Wallet) (rs : list (float * (float * float))) (first : float * float)
         (rest : list (float * float)),
    messages (wallet_base w) = [] ->
    receipts rs = first :: rest ->
    let w' := record_all rs w in
    let total := float_sum (map (fun td => rounded5 (snd td)) (receipts rs)) in
    io_provider (wallet_base (final (flush w')))
      = (io_provider (wallet_base w)
           ++ [mkIOInput (class_name (wallet_base w))
                         (summary_text total (primary_asset (wallet_base w)))
                         (fst (last rest first))])%list
    /\ flush w = mkRes w (Returned None) [].
Proof.
  intros w rs first rest Hw Hr w' total. split; [|now apply flush_empty].
  assert (Hm : messages (wallet_base w') = buffered (first :: rest)).
  { unfold w'. now rewrite record_all_messages, Hw, Hr. }
  pose proof (receipts_positive rs) as Hp. rewrite Hr in Hp.
  rewrite (flush_buffered w' first rest Hp Hm). cbn [final].
  rewrite flushed_io. unfold total. rewrite Hr.
  destruct (record_all_base rs w) as (A & B & C). fold w' in A, B, C.
  now rewrite A, B, C.
Qed.

Lemma flush_hands_on_one_input_witness :
  io_provider
    (wallet_base
       (final (flush (record_all [(1700000000%float, (12.5%float, 2.5%float));
                                  (1700000001%float, (12.75%float, 0.25%float))]
                                 Demo.ethereum_reader))))
    = [mkIOInput "WalletEthereum" "You just received 2.75000 ETH." 1700000001%float].
Proof.
  apply (flush_hands_on_one_input Demo.ethereum_reader
           [(1700000000%float, (12.5%float, 2.5%float));
            (1700000001%float, (12.75%float, 0.25%float))]
           (1700000000%float, 2.5%float) [(1700000001%float, 0.25%float)]).
  - reflexivity.
  - reflexivity.
Defined.

(** X11.  Receipts are counted once across flushes.  After a first batch of
    inputs has been recorded and flushed, the flush that follows a second
    batch sums the receipts of the second batch only. *)
Theorem flush_counts_receipts_once :
  forall (w : Wallet) (rs1 rs2 : list (float * (float * float))),
    recorded w ->
    receipts rs2 <> [] ->
    let w1 := final (flush (record_all rs1 w)) in
    let w2 := record_all rs2 w1 in
    let total := float_sum (map (fun td => rounded5 (snd td)) (receipts rs2)) in
    out (flush w2)
      = Returned (Some (report w (summary_text total (primary_asset (wallet_base w)))))
    /\ messages (wallet_base (final (flush w2))) = [].
Proof.
  intros w rs1 rs2 Hrec Hne w1 w2 total.
  pose proof (record_all_recorded rs1 w Hrec) as H1.
  destruct (flush_keeps _ H1) as (Hm1 & _).
  assert (Hm : messages (wallet_base w2) = buffered (receipts rs2)).
  { unfold w2, w1. now rewrite record_all_messages, Hm1. }
  pose proof (receipts_positive rs2) as Hp.
  destruct (receipts rs2) as [|td tds] eqn:E; [contradiction|].
  rewrite (flush_buffered w2 td tds Hp Hm). cbn [out final].
  assert (Hb : class_name (wallet_base w2) = class_name (wallet_base w)
               /\ primary_asset (wallet_base w2) = primary_asset (wallet_base w)).
  { destruct (record_all_base rs2 w1) as (A & B & _). fold w2 in A, B.
    rewrite A, B. unfold w1.
    destruct (record_all_base rs1 w) as (A1 & B1 & _). rewrite <- A1, <- B1.
    destruct H1 as (tds1 & Hp1 & Hms1). destruct tds1 as [|td1 tds1].
    - rewrite (flush_empty _ Hms1). split; reflexivity.
    - rewrite (flush_buffered _ td1 tds1 Hp1 Hms1).
      destruct (record_all rs1 w) as [o|o|o]; split; reflexivity. }
  destruct Hb as [Hc Ha]. unfold report. rewrite Hc, Ha.
  split; [reflexivity|]. destruct w2 as [o|o|o]; reflexivity.
Qed.

Lemma flush_counts_receipts_once_witness :
  out (flush (record_all [(1700000002%float, (13%float, 0.25%float))]
                (final (flush (record_all [(1700000000%float, (12.5%float, 2.5%float))]
                                          Demo.ethereum_reader)))))
    = Returned (Some (report Demo.ethereum_reader "You just received 0.25000 ETH.")).
Proof.
  apply (flush_counts_receipts_once Demo.ethereum_reader
           [(1700000000%float, (12.5%float, 2.5%float))]
           [(1700000002%float, (13%float, 0.25%float))]).
  - exists []. split; [constructor | reflexivity].
  - vm_compute. discriminate.
Defined.

(** ** Construction *)

(** X12.  A wallet that is constructed starts with an empty buffer, nothing
    handed to the IOProvider, and both balances equal to the first balance
    read.  It polls every [poll_interval] of the configuration (0.5 if not
    given); its asset is [primary_asset] of the configuration, and if not
    given "eth" for Ethereum and Coinbase and "sol" for Solana, which is an
    asset the class supports. *)
Theorem constructed_wallet_state :
  forall (v : Variant) (W : World) (config : SensorConfig) (w : Wallet),
    out (construct v W config) = Returned w ->
    variant_of w = v
    /\ messages (wallet_base w) = []
    /\ io_provider (wallet_base w) = []
    /\ balance (wallet_base w) = balance_previous (wallet_base w)
    /\ POLL_INTERVAL (wallet_base w) = getattr (cfg_poll_interval config) 0.5%float
    /\ primary_asset (wallet_base w)
       = getattr (cfg_primary_asset config)
                 (match v with VSolana => "sol" | _ => "eth" end)
    /\ In (match v with VSolana => "sol" | _ => "eth" end)
          (match w with
           | Ethereum o => WalletEthereum.get_supported_assets o
           | Solana o => WalletSolana.get_supported_assets o
           | Coinbase o => WalletCoinbase.get_supported_assets o
           end).
Proof.
  intros v W config w.
  destruct v; unfold construct; run; answers; simpl; intros H;
    try discriminate H; injection H as <-; repeat split;
    try (destruct config as [pi [pa|] pu st]; simpl in *; congruence);
    simpl; tauto.
Qed.

Lemma constructed_wallet_state_witness :
  primary_asset (wallet_base Demo.solana_reader) = "sol".
Proof.
  apply (constructed_wallet_state VSolana (Demo.online Demo.env_without_keys)
           Demo.default_config Demo.solana_reader).
  vm_compute. reflexivity.
Defined.

(** X13.  A private key that the library rejects is fatal for the Ethereum
    wallet and not for the Solana wallet.  When [Account.from_key] raises,
    the construction of the Ethereum wallet raises the same exception before
    any network call.  When decoding the Solana key raises, in
    [base58.b58decode] or in [Keypair.from_bytes], the exception is swallowed:
    the wallet is constructed all the same, in read-only mode, whenever its
    address is set and parses and the node answers the first balance read. *)
Theorem rejected_private_key :
  forall (W : World) (config : SensorConfig) (key : string) (e : exn),
    key <> "" ->
    (environ W "ETH_PRIVATE_KEY" = Some key ->
     acct_from_key (web3 W) key = Raised e ->
     out (construct VEthereum W config) = Raised e
     /\ calls (construct VEthereum W config) = [])
    /\ (environ W "SOLANA_PRIVATE_KEY" = Some key ->
        (sol_b58decode (solana W) key = Raised e
         \/ exists key_bytes, sol_b58decode (solana W) key = Returned key_bytes
                              /\ sol_keypair_from_bytes (solana W) key_bytes = Raised e) ->
        forall address pk lamports,
          environ W "SOLANA_WALLET_ADDRESS" = Some address ->
          address <> "" ->
          sol_pubkey_from_string (solana W) address = Returned pk ->
          sol_get_balance (solana W) pk = Returned (Some lamports) ->
          exists w,
            out (construct VSolana W config) = Returned w
            /\ read_only w = true
            /\ calls (construct VSolana W config) = [SolGetBalance pk]).
Proof.
  intros W config key e Hk.
  assert (Ht : truthy (Some key) = true).
  { simpl. destruct (String.eqb_spec key ""); [contradiction | reflexivity]. }
  split.
  - intros He Hf. unfold construct, WalletEthereum.init. rewrite He, Ht. simpl getattr.
    run. rewrite Hf. split; reflexivity.
  - intros He Hf address pk lamports Ha Hne Hp Hb.
    assert (Hta : truthy (Some address) = true).
    { simpl. destruct (String.eqb_spec address ""); [contradiction | reflexivity]. }
    unfold construct, WalletSolana.init. rewrite He, Ht, Ha, Hta. run. cbn [getattr].
    destruct Hf as [Hf | (key_bytes & Hd & Hf)].
    + rewrite Hf. run. rewrite Hp. run. rewrite Hb. run.
      eexists. repeat split.
    + rewrite Hd. run. rewrite Hf. run. rewrite Hp. run. rewrite Hb. run.
      eexists. repeat split.
Qed.

Lemma rejected_private_key_witness :
  out (construct VEthereum Rejected.ethereum_key Demo.default_config)
    = Raised (mkExn "ValueError" "The private key must be exactly 32 bytes long")
  /\ exists w,
       out (construct VSolana Rejected.solana_key Demo.default_config) = Returned w
       /\ read_only w = true
       /\ calls (construct VSolana Rejected.solana_key Demo.default_config)
          = [SolGetBalance "EzGfEo4qV5FnQ3p6Qr5iFkT3n6rqvWq6dZqCqP5uyPxC"].
Proof.
  assert (Hk1 : "0x4c0883a6" <> "") by discriminate.
  assert (Hk2 : "3Mc6vR" <> "") by discriminate.
  split.
  - apply (proj1 (rejected_private_key Rejected.ethereum_key Demo.default_config
                    "0x4c0883a6"
                    (mkExn "ValueError" "The private key must be exactly 32 bytes long")
                    Hk1)).
    + reflexivity.
    + reflexivity.
  - apply (proj2 (rejected_private_key Rejected.solana_key Demo.default_config "3Mc6vR"
                    (mkExn "ValueError" "Invalid character") Hk2)
             eq_refl (or_introl eq_refl)
             "EzGfEo4qV5FnQ3p6Qr5iFkT3n6rqvWq6dZqCqP5uyPxC"
             "EzGfEo4qV5FnQ3p6Qr5iFkT3n6rqvWq6dZqCqP5uyPxC" 2500000000 eq_refl).
    + discriminate.
    + reflexivity.
    + reflexivity.
Defined.

(** X14.  The first balance read is part of construction for every class: if
    it raises, or if Solana answers without a value, no wallet is
    constructed. *)
Theorem first_read_failure_is_fatal :
  forall (v : Variant) (W : World) (config : SensorConfig),
    (forall a, exists e, w3_get_balance (web3 W) a = Raised e) ->
    (forall k, sol_get_balance (solana W) k = Returned None
               \/ exists e, sol_get_balance (solana W) k = Raised e) ->
    (forall a, exists e, cdp_balance (cdp W) a = Raised e) ->
    exists e, out (construct v W config) = Raised e.
Proof.
  intros v W config He Hs Hc. destruct v; unfold construct; run.
  - answers; try (eexists; reflexivity);
      match goal with
      | H : w3_get_balance _ ?a = Returned _ |- _ =>
          destruct (He a) as [e' E]; congruence
      end.
  - answers; try (eexists; reflexivity);
      match goal with
      | H : sol_get_balance _ ?k = Returned (Some _) |- _ =>
          destruct (Hs k) as [E | [e' E]]; congruence
      end.
  - answers; try (eexists; reflexivity);
      match goal with
      | H : cdp_balance _ ?a = Returned _ |- _ =>
          destruct (Hc a) as [e' E]; congruence
      end.
Qed.

Lemma first_read_failure_is_fatal_witness :
  exists e,
    out (construct VSolana (Demo.offline Demo.env_without_keys) Demo.default_config)
      = Raised e.
Proof.
  apply (first_read_failure_is_fatal VSolana (Demo.offline Demo.env_without_keys)
           Demo.default_config).
  - intros a. eexists. reflexivity.
  - intros k. right. eexists. reflexivity.
  - intros a. eexists. reflexivity.
Defined.

(** ** More on transfers *)

(** X15.  The Solana wallet turns the amount into lamports with
    [int(amount * 1_000_000_000)].  Whenever that conversion raises (the amount
    is NaN or infinite, or the product overflows), the transfer comes back
    failed and no network call has been made. *)
Theorem solana_amount_must_convert :
  forall (W : World) (to_address asset : string) (amount : float)
         (o : WalletSolana.Self) (e : exn),
    int_of_float (amount * 1000000000)%float = Raised e ->
    let r := transfer W to_address amount asset (Solana o) in
    calls r = []
    /\ exists error, out r = Returned (failed_transfer amount asset to_address error).
Proof.
  intros W to_address asset amount o e H. destruct o as [b f]. run.
  destruct (WalletSolana.keypair f); run; [|split; [|eexists]; reflexivity].
  destruct (sol_pubkey_from_string (solana W) to_address); run;
    [|split; [|eexists]; reflexivity].
  rewrite H. run. split; [|eexists]; reflexivity.
Qed.

Lemma solana_amount_must_convert_witness :
  calls (transfer (Demo.online Demo.env_with_keys)
                  "EzGfEo4qV5FnQ3p6Qr5iFkT3n6rqvWq6dZqCqP5uyPxC" nan "sol"
                  (Solana (mkObj (Demo.base_at "WalletSolana" "sol" 2.5)
                                 (WalletSolana.mkFields
                                    "https://api.mainnet-beta.solana.com"
                                    "EzGfEo4qV5FnQ3p6Qr5iFkT3n6rqvWq6dZqCqP5uyPxC"
                                    (Some "3Mc6vR") (Some "3Mc6vR")
                                    "EzGfEo4qV5FnQ3p6Qr5iFkT3n6rqvWq6dZqCqP5uyPxC"))))
    = [].
Proof.
  eapply (solana_amount_must_convert (Demo.online Demo.env_with_keys)
            "EzGfEo4qV5FnQ3p6Qr5iFkT3n6rqvWq6dZqCqP5uyPxC" "sol" nan).
  reflexivity.
Defined.

Lemma ethereum_failed_not_submitted W to_address amount asset o d :
  let w := Ethereum o in
  let r := transfer W to_address amount asset w in
  out r = Returned d ->
  dict_get "status" d = Some (PStr "failed") ->
  forall c tx, In c (calls r) ->
               submission W to_address amount asset w c <> Some (Returned tx).
Proof.
  destruct o as [b f]; run; answers; simpl; intros Hd Hs; injection Hd as <-;
    try discriminate Hs; intros c tx Hin;
    repeat (destruct Hin as [<- | Hin]; [simpl; congruence|]); destruct Hin.
Qed.

Lemma solana_failed_not_submitted W to_address amount asset o d :
  let w := Solana o in
  let r := transfer W to_address amount asset w in
  out r = Returned d ->
  dict_get "status" d = Some (PStr "failed") ->
  forall c tx, In c (calls r) ->
               submission W to_address amount asset w c <> Some (Returned tx).
Proof.
  destruct o as [b f]; run; answers; simpl; intros Hd Hs; injection Hd as <-;
    try discriminate Hs; intros c tx Hin;
    repeat (destruct Hin as [<- | Hin]; [simpl; congruence|]); destruct Hin.
Qed.

(** X16.  For the Ethereum and the Solana wallet a failed result means that
    no submission was accepted: no network call of the transfer is a
    submission that the service answered.  For the Coinbase wallet this does
    not hold: when the SDK accepts the transfer and waiting for it raises, the
    result is failed although the transfer was submitted. *)
Theorem failed_transfer_and_submission :
  forall (W : World) (to_address asset : string) (amount : float) (w : Wallet),
    let r := transfer W to_address amount asset w in
    match w with
    | Coinbase _ =>
        forall tx e,
          cdp_transfer (cdp W) amount asset to_address = Returned tx ->
          cdp_transfer_wait (cdp W) = Raised e ->
          out r = Returned (failed_transfer amount asset to_address (exn_text e))
          /\ calls r = [CdpTransfer to_address amount asset; CdpTransferWait]
    | _ =>
        forall d, out r = Returned d ->
                  dict_get "status" d = Some (PStr "failed") ->
                  forall c tx, In c (calls r) ->
                               submission W to_address amount asset w c
                               <> Some (Returned tx)
    end.
Proof.
  intros W to_address asset amount [o|o|o]; cbv zeta.
  - intros d. apply ethereum_failed_not_submitted.
  - intros d. apply solana_failed_not_submitted.
  - intros tx e Ht Hw. destruct o as [b f]. run. rewrite Ht. run. rewrite Hw.
    split; reflexivity.
Qed.

Lemma failed_transfer_and_submission_witness :
  out (transfer (mkWorld Demo.env_without_keys 0 Demo.web3_up Demo.solana_up
                   (mkCdp (fun _ => Returned Demo.cdp_wallet) (fun _ => Returned 10%float)
                          (fun _ _ _ => Returned "0x9f8e7d")
                          (Raised (mkExn "TimeoutError" "Transfer timed out"))
                          (fun _ => Returned "0x4a5b6c")))
                null_address 1 "eth" Demo.coinbase_wallet)
    = Returned (failed_transfer 1 "eth" null_address "Transfer timed out").
Proof.
  eapply (failed_transfer_and_submission
            (mkWorld Demo.env_without_keys 0 Demo.web3_up Demo.solana_up
               (mkCdp (fun _ => Returned Demo.cdp_wallet) (fun _ => Returned 10%float)
                      (fun _ _ _ => Returned "0x9f8e7d")
                      (Raised (mkExn "TimeoutError" "Transfer timed out"))
                      (fun _ => Returned "0x4a5b6c")))
            null_address "eth" 1 Demo.coinbase_wallet "0x9f8e7d"
            (mkExn "TimeoutError" "Transfer timed out")).
  - reflexivity.
  - reflexivity.
Defined.

(** ** More on the sampler *)

Lemma fetch_balance_pure W asset w :
  match w with
  | Coinbase _ => True
  | _ => final (fetch_balance W asset w) = w
         /\ exists v, out (fetch_balance W asset w) = Returned v
  end.
Proof.
  destruct w as [o|o|o]; [| |exact I];
    destruct o as [b f]; run; answers; split; try reflexivity; eexists; reflexivity.
Qed.

(** X17.  [fetch_balance] is a read.  For every class it leaves the base
    attributes of the wallet (balances, buffer, asset, IOProvider inputs) as
    they were.  For Ethereum and Solana it leaves the whole object as it was
    and never raises; for Coinbase the only attribute it can replace is the
    SDK wallet it refreshes. *)
Theorem fetch_balance_is_a_read :
  forall (W : World) (asset : string) (w : Wallet),
    wallet_base (final (fetch_balance W asset w)) = wallet_base w
    /\ variant_of (final (fetch_balance W asset w)) = variant_of w
    /\ match w with
       | Ethereum _ | Solana _ =>
           final (fetch_balance W asset w) = w
           /\ exists v, out (fetch_balance W asset w) = Returned v
       | Coinbase o =>
           exists o', final (fetch_balance W asset w) = Coinbase o'
                      /\ WalletCoinbase.COINBASE_WALLET_ID (ext o')
                         = WalletCoinbase.COINBASE_WALLET_ID (ext o)
       end.
Proof.
  intros W asset w. split; [apply fetch_balance_base|].
  pose proof (fetch_balance_pure W asset w) as H.
  destruct w as [o|o|o].
  - destruct H as [-> H]. split; [reflexivity|]. split; [reflexivity | exact H].
  - destruct H as [-> H]. split; [reflexivity|]. split; [reflexivity | exact H].
  - clear H. destruct o as [b f]. run. answers; (split; [reflexivity|]);
      eexists; split; reflexivity.
Qed.

(** X18.  The change a cycle emits is measured against the sample of the
    cycle before it, whether or not that cycle recorded a receipt: after a
    cycle that fetched [s1], the next cycle that fetches [s2] returns
    [(s2, s2 - s1)] and records a receipt exactly if [s2 - s1] is positive. *)
Theorem change_is_against_last_sample :
  forall (W1 W2 : World) (now1 now2 : float) (w : Wallet) (s1 s2 : float),
    sample W1 w = Returned s1 ->
    sample W2 (cycle W1 now1 w) = Returned s2 ->
    out (poll W2 (cycle W1 now1 w)) = Returned (s2, (s2 - s1)%float)
    /\ messages (wallet_base (cycle W2 now2 (cycle W1 now1 w)))
       = (messages (wallet_base (cycle W1 now1 w))
            ++ (if (0 <? s2 - s1)%float
                then [mkMessage now2 (format_5f (s2 - s1)%float)] else []))%list.
Proof.
  intros W1 W2 now1 now2 w s1 s2 H1 H2.
  assert (Hp : balance_previous (wallet_base (cycle W1 now1 w)) = s1).
  { unfold cycle. destruct (poll_returns W1 w s1 H1) as (A & _ & C & _). rewrite A.
    destruct (record_balances now1 (s1, (s1 - balance_previous (wallet_base w))%float)
                              (final (poll W1 w))) as [_ ->]. exact C. }
  destruct (poll_returns W2 _ s2 H2) as (A & _ & _ & D). rewrite Hp in A.
  split; [exact A|]. unfold cycle at 1. rewrite A, record_messages, D. reflexivity.
Qed.

Lemma change_is_against_last_sample_witness :
  out (poll (Large.reporting 11%float)
            (cycle (Large.reporting 12.5%float) 1700000000%float Demo.coinbase_wallet))
    = Returned (11, -1.5)%float.
Proof.
  apply (change_is_against_last_sample (Large.reporting 12.5%float)
           (Large.reporting 11%float) 1700000000%float 1700000001%float
           Demo.coinbase_wallet 12.5%float 11%float).
  - reflexivity.
  - reflexivity.
Defined.
